(** * DEM download script for the Langtang region (dem/srtm.py)

    A shallow embedding of the script: the tile-name helper, the two
    fetchers, the top-level download loop, the converter loop and the
    render stage, followed by the properties proved about them.

    Modelling conventions.
    - Python [int] is [Z]; [str] is [string]; [bytes] is [list byte].
    - The working directory is a finite map from path strings to file
      contents.  Paths are compared as written.
    - Side effects (files, standard output, HTTP requests, the current
      pyplot figure) are threaded through a state-and-exception monad.
    - What the script gets from outside (HTTP responses, the archive and
      GeoTIFF codecs) is collected in a record [env].
    - Python floats appear only as the bounding box (printed into a URL)
      and as the pixel size 1/3600; the former are short decimal literals,
      the latter an exact rational. *)

From Stdlib Require Import ZArith QArith Lia.
From Stdlib.Strings Require Import Ascii String Byte.
From stdpp Require Import gmap strings list fin_maps pretty.

Local Open Scope Z_scope.

(** ** 1. Helper: SRTM tile name *)

Fixpoint zeros (n : nat) : string :=
  match n with
  | O => ""
  | S n' => String "0"%char (zeros n')
  end.

(** [s.zfill(width)] for a string of digits. *)
Definition zfill (width : nat) (s : string) : string :=
  zeros (width - String.length s)%nat +:+ s.

(** The format specification [:0{width}d] applied to an integer: the sign
    comes first and counts towards the width, which is a minimum. *)
Definition format_0d (width : nat) (n : Z) : string :=
  if n <? 0 then String "-"%char (zfill (width - 1) (pretty (- n)))
  else zfill width (pretty n).

Definition tile_name (lat lon : Z) : string :=
  let ns := if 0 <=? lat then "N" else "S" in
  let ew := if 0 <=? lon then "E" else "W" in
  ns +:+ format_0d 2 (Z.abs lat) +:+ ew +:+ format_0d 3 (Z.abs lon).

(** The decimal digit character of [d] (for [0 <= d <= 9]). *)
Definition digit (d : Z) : ascii := ascii_of_N (48 + Z.to_N d).

(** The shape the tile identifier is documented to have: a hemisphere
    letter, two digits, a hemisphere letter, three digits. *)
Definition tile_shape (lat lon : Z) : string :=
  let a := Z.abs lat in
  let o := Z.abs lon in
  String (if 0 <=? lat then "N"%char else "S"%char)
    (String (digit (a / 10)) (String (digit (a mod 10))
      (String (if 0 <=? lon then "E"%char else "W"%char)
        (String (digit (o / 100)) (String (digit (o / 10 mod 10))
          (String (digit (o mod 10)) "")))))).


(** ** Files, rasters and the outside world *)

(** A two-dimensional numpy array of integers, stored row by row. *)
Record ndarray := { nrows : Z; ncols : Z; items : list Z }.

(** The six coefficients of an affine transform, as the [affine] package
    names them: x = af_a * col + af_b * row + af_c and
    y = af_d * col + af_e * row + af_f. *)
Record affine := { af_a : Q; af_b : Q; af_c : Q; af_d : Q; af_e : Q; af_f : Q }.

(** A raster dataset as rasterio sees it: the creation profile and the
    bands written to it. *)
Record raster := {
  driver : string;
  height : Z;
  width : Z;
  count : Z;
  dtype : string;
  crs : string;
  transform : affine;
  bands : list ndarray
}.

(** A pyplot figure: its size in inches, the image drawn with its colour
    map, the label of the colour bar, the title, and whether the axes are
    drawn. *)
Record figure := {
  figsize : Q * Q;
  image : option (ndarray * string);
  colorbar_label : option string;
  title : option string;
  axis_on : bool
}.

(** A file holds raw bytes, a dataset written by rasterio, or a figure
    saved by pyplot (the last two kept structurally; their byte encodings
    are the environment's). *)
Inductive content :=
| Raw (data : list byte)
| GTiff (r : raster)
| Png (f : figure).

Record world := {
  fs : gmap string content;
  stdout : list string;
  requests : list string;
  gcf : option figure
}.

Record response := { status_code : Z; body : list byte }.

(** What the script receives from outside: the answer of the server to a
    GET of each URL; the members of an archive, each under the relative
    path at which [zipfile] extracts it ([None]: not an archive); the
    GeoTIFF codec. *)
Record env := {
  http_get : string → response;
  zip_members : list byte → option (list (string * list byte));
  gtiff_decode : list byte → option raster;
  gtiff_encode : raster → list byte;
  png_encode : figure → list byte
}.

Inductive exn :=
| BadZipFile
| FileNotFoundError (path : string)
| RuntimeError (msg : string)
| ValueError (msg : string)
| RasterioIOError (path : string)
| IndexError
| TypeError
| AttributeError (msg : string).

Inductive result (A : Type) :=
| Ok (a : A)
| Raise (e : exn).
Arguments Ok {A} a.
Arguments Raise {A} e.

(** ** The state-and-exception monad *)

Definition M (A : Type) : Type := world → result A * world.

#[global] Instance M_ret : MRet M := λ A a w, (Ok a, w).
#[global] Instance M_bind : MBind M := λ A B k m w,
  match m w with
  | (Ok a, w') => k a w'
  | (Raise e, w') => (Raise e, w')
  end.

Definition raise {A} (e : exn) : M A := λ w, (Raise e, w).

Definition set_fs (g : gmap string content → gmap string content) (w : world) : world :=
  {| fs := g (fs w); stdout := stdout w; requests := requests w; gcf := gcf w |}.

Definition modify_fs (g : gmap string content → gmap string content) : M unit :=
  λ w, (Ok tt, set_fs g w).

Definition print (line : string) : M unit :=
  λ w, (Ok tt, {| fs := fs w; stdout := stdout w ++ [line];
                  requests := requests w; gcf := gcf w |}).

(** ** os.path (POSIX) *)

(** [p.rfind("/") + 1]: the length of the shortest prefix of [p] that
    holds every slash of [p]; 0 when [p] has none. *)
Fixpoint rfind_slash_succ (p : string) : nat :=
  match p with
  | "" => O
  | String c r =>
      match rfind_slash_succ r with
      | O => if Ascii.eqb c "/" then 1%nat else O
      | S i => S (S i)
      end
  end.

(** [s.rstrip("/")] *)
Fixpoint rstrip_slash (s : string) : string :=
  match s with
  | "" => ""
  | String c r =>
      match rstrip_slash r with
      | "" => if Ascii.eqb c "/" then "" else String c ""
      | r' => String c r'
      end
  end.

(** ["/" * n] *)
Fixpoint slashes (n : nat) : string :=
  match n with
  | O => ""
  | S n' => String "/" (slashes n')
  end.

Definition dirname (p : string) : string :=
  let i := rfind_slash_succ p in
  let head := substring 0 i p in
  if negb (String.eqb head "") && negb (String.eqb head (slashes (String.length head)))
  then rstrip_slash head
  else head.

Definition basename (p : string) : string :=
  let i := rfind_slash_succ p in
  substring i (String.length p - i) p.

Definition startswith_slash (s : string) : bool :=
  match s with
  | String c _ => Ascii.eqb c "/"
  | "" => false
  end.

Fixpoint endswith_slash (s : string) : bool :=
  match s with
  | "" => false
  | String c "" => Ascii.eqb c "/"
  | String _ r => endswith_slash r
  end.

(** [os.path.join(a, b)] *)
Definition path_join (a b : string) : string :=
  if startswith_slash b then b
  else if String.eqb a "" || endswith_slash a then a +:+ b
  else a +:+ "/" +:+ b.

(** ** Files *)

Definition exists_ (path : string) : M bool :=
  λ w, (Ok (bool_decide (is_Some (fs w !! path))), w).

(** [open(path, "wb")]: the file is created, or truncated. *)
Definition open_wb (path : string) : M unit :=
  modify_fs (insert path (Raw [])).

(** [f.write(chunk)] on the file opened at [path]: the bytes are appended. *)
Definition write (path : string) (chunk : list byte) : M unit :=
  modify_fs (λ m,
    match m !! path with
    | Some (Raw data) => <[path := Raw (data ++ chunk)]> m
    | _ => <[path := Raw chunk]> m
    end).

(** [for chunk in chunks: f.write(chunk)] *)
Fixpoint write_chunks (path : string) (chunks : list (list byte)) : M unit :=
  match chunks with
  | [] => mret tt
  | chunk :: rest => write path chunk ;; write_chunks path rest
  end.

(** [os.remove(path)] *)
Definition remove (path : string) : M unit :=
  λ w, match fs w !! path with
       | Some _ => (Ok tt, set_fs (delete path) w)
       | None => (Raise (FileNotFoundError path), w)
       end.

(** ** requests *)

Fixpoint chunks_of (fuel n : nat) (data : list byte) : list (list byte) :=
  match fuel with
  | O => []
  | S fuel' =>
      match data with
      | [] => []
      | _ => take n data :: chunks_of fuel' n (drop n data)
      end
  end.

(** [r.iter_content(n)]: the body in pieces of [n] bytes, the last one
    possibly shorter. *)
Definition iter_content (n : nat) (r : response) : list (list byte) :=
  chunks_of (length (body r)) n (body r).

Section Script.

Variable E : env.

(** [requests.get(url, stream=True)] *)
Definition requests_get (url : string) : M response :=
  λ w, (Ok (http_get E url),
        {| fs := fs w; stdout := stdout w; requests := requests w ++ [url];
           gcf := gcf w |}).

(** The bytes of the file at [path]. *)
Definition read_bytes (path : string) : M (list byte) :=
  λ w, match fs w !! path with
       | Some (Raw data) => (Ok data, w)
       | Some (GTiff r) => (Ok (gtiff_encode E r), w)
       | Some (Png f) => (Ok (png_encode E f), w)
       | None => (Raise (FileNotFoundError path), w)
       end.

(** ** zipfile *)

(** [zipfile.ZipFile(path, "r")]: the members of the archive, read when
    it is opened. *)
Definition ZipFile (path : string) : M (list (string * list byte)) :=
  data ← read_bytes path;
  match zip_members E data with
  | Some members => mret members
  | None => raise BadZipFile
  end.

(** [z.extractall(path)]: every member is written below [path], in the
    archive's order, under its own name. *)
Fixpoint extractall (members : list (string * list byte)) (path : string) : M unit :=
  match members with
  | [] => mret tt
  | (name, data) :: rest =>
      modify_fs (insert (path_join path name) (Raw data)) ;;
      extractall rest path
  end.

(** ** 2. Try downloading SRTM tile directly from AWS *)

Definition srtm_url (lat lon : Z) : string :=
  "https://srtm.kurviger.de/SRTM1/" +:+ tile_name lat lon +:+ ".hgt.zip".

Definition download_srtm_aws (lat lon : Z) (out_path : string) : M bool :=
  let url := srtm_url lat lon in
  print ("Trying direct SRTM download: " +:+ url) ;;
  r ← requests_get url;
  if negb (status_code r =? 200) then
    print "Direct download failed." ;;
    mret false
  else
    let zip_path := out_path +:+ ".zip" in
    open_wb zip_path ;;
    write_chunks zip_path (iter_content 1024 r) ;;
    z ← ZipFile zip_path;
    extractall z (dirname out_path) ;;
    remove zip_path ;;
    print "Direct SRTM download successful." ;;
    mret true.

(** ** 3. Fallback: Download DEM from OpenTopography *)

(** A Python float written as a decimal literal of a few digits:
    [fl_mant * 10 ^ (- fl_scale)]. *)
Record pyfloat := { fl_mant : Z; fl_scale : nat }.

Fixpoint strip_zeros (m : Z) (k : nat) : Z * nat :=
  match k with
  | O => (m, O)
  | S k' => if m mod 10 =? 0 then strip_zeros (m / 10) k' else (m, k)
  end.

(** [str(x)] of such a float, as an f-string field prints it: the
    shortest decimal that reads back as [x], i.e. the literal without
    trailing zeros, with at least one digit after the point.  (Literals of
    up to 15 significant digits and of magnitude between 1e-4 and 1e16;
    Python switches to exponent notation outside.) *)
Definition float_str (x : pyfloat) : string :=
  let '(m, k) := strip_zeros (fl_mant x) (fl_scale x) in
  let p := 10 ^ Z.of_nat k in
  let sign : string := if m <? 0 then "-" else "" in
  sign +:+ pretty (Z.abs m / p) +:+ "." +:+
  match k with
  | O => "0"
  | _ => zfill k (pretty (Z.abs m mod p))
  end.

Definition opentopo_url (bounds : pyfloat * pyfloat * pyfloat * pyfloat)
    (api_key : string) : string :=
  let '(minlon, minlat, maxlon, maxlat) := bounds in
  "https://portal.opentopography.org/API/globaldem?" +:+
  "demtype=SRTMGL1&" +:+
  ("south=" +:+ float_str minlat +:+ "&north=" +:+ float_str maxlat +:+
   "&west=" +:+ float_str minlon +:+ "&east=" +:+ float_str maxlon +:+ "&") +:+
  "outputFormat=GTiff" +:+
  ("apikey=" +:+ api_key).

Definition download_opentopo (bounds : pyfloat * pyfloat * pyfloat * pyfloat)
    (out_path api_key : string) : M bool :=
  print "Trying OpenTopography fallback..." ;;
  let url := opentopo_url bounds api_key in
  r ← requests_get url;
  if negb (status_code r =? 200) then
    raise (RuntimeError "OpenTopography request failed.")
  else
    open_wb out_path ;;
    write_chunks out_path (iter_content 1024 r) ;;
    print "OpenTopography download successful." ;;
    mret true.

(** ** 4. Download DEM for Langtang Region *)

Definition bounds : pyfloat * pyfloat * pyfloat * pyfloat :=
  ({| fl_mant := 8525; fl_scale := 2 |}, {| fl_mant := 2815; fl_scale := 2 |},
   {| fl_mant := 8590; fl_scale := 2 |}, {| fl_mant := 2860; fl_scale := 2 |}).

Definition output_tif : string := "langtang_srtm.tif".

Definition api_key : string := "d4339698fa9c0fc3fbdfaef059ebb1c3".

(** [range(a, b)] *)
Definition range (a b : Z) : list Z := seqZ a (b - a).

(** The body of the inner download loop, over the longitudes still to
    visit; [success] is the script's flag. *)
Fixpoint download_lons (lat : Z) (lons : list Z) (success : bool) : M bool :=
  match lons with
  | [] => mret success
  | lon :: rest =>
      let tile := tile_name lat lon in
      let out_tile := tile +:+ ".hgt" in
      ok ← download_srtm_aws lat lon out_tile;
      download_lons lat rest (if (ok : bool) then true else success)
  end.

Fixpoint download_lats (lats : list Z) (success : bool) : M bool :=
  match lats with
  | [] => mret success
  | lat :: rest =>
      success' ← download_lons lat (range 85 87) success;
      download_lats rest success'
  end.

(** Lines 82-89: the flag starts false and the grid is walked. *)
Definition download_loop : M bool := download_lats (range 28 30) false.

(** *** Converter: raw .hgt to GeoTIFF *)

Definition byte_val (b : byte) : Z := Z.of_N (Byte.to_N b).

(** A 16-bit pattern read as a signed integer. *)
Definition int16_of (u : Z) : Z := if u <? 32768 then u else u - 65536.

(** The items of [np.dtype(">i2")] in a byte string: two bytes each, the
    high one first; an odd byte left at the end is not an item. *)
Fixpoint be_i2 (data : list byte) : list Z :=
  match data with
  | hi :: lo :: rest => int16_of (256 * byte_val hi + byte_val lo) :: be_i2 rest
  | _ => []
  end.

(** [np.fromfile(path, np.dtype(">i2"))]: as many items as the file holds
    in full (its size divided by the item size, rounded down). *)
Definition fromfile_be_i2 (path : string) : M (list Z) :=
  data ← read_bytes path;
  mret (be_i2 data).

(** [a.reshape(r, c)] of a flat array. *)
Definition reshape (a : list Z) (r c : Z) : M ndarray :=
  if Z.of_nat (length a) =? r * c
  then mret {| nrows := r; ncols := c; items := a |}
  else raise (ValueError "cannot reshape array").

(** [rasterio.transform.from_origin(west, north, xsize, ysize)]:
    [Affine.translation(west, north) * Affine.scale(xsize, -ysize)]. *)
Definition from_origin (west north xsize ysize : Q) : affine :=
  {| af_a := xsize; af_b := 0; af_c := west;
     af_d := 0; af_e := - ysize; af_f := north |}.

(** [rasterio.open(path, "w", driver=.., height=.., width=.., count=..,
    dtype=.., crs=.., transform=..)]: a new dataset whose bands are yet to
    be written (all zero). *)
Definition rasterio_open_w (path driver : string) (height width count : Z)
    (dtype crs : string) (transform : affine) : M unit :=
  let blank := {| nrows := height; ncols := width;
                  items := replicate (Z.to_nat (height * width)) 0 |} in
  modify_fs (insert path (GTiff {|
    driver := driver; height := height; width := width; count := count;
    dtype := dtype; crs := crs; transform := transform;
    bands := replicate (Z.to_nat count) blank |})).

(** [dst.write(data, indexes)] on the dataset opened at [path]: band
    [indexes] (counted from 1) becomes [data], whose shape must be the
    dataset's. *)
Definition dst_write (path : string) (data : ndarray) (indexes : Z) : M unit :=
  λ w, match fs w !! path with
       | Some (GTiff r) =>
           if (1 <=? indexes) && (indexes <=? count r)
              && (nrows data =? height r) && (ncols data =? width r)
           then (Ok tt, set_fs (insert path (GTiff {|
                   driver := driver r; height := height r; width := width r;
                   count := count r; dtype := dtype r; crs := crs r;
                   transform := transform r;
                   bands := <[Z.to_nat (indexes - 1) := data]> (bands r) |})) w)
           else (Raise (ValueError "band index or shape"), w)
       | _ => (Raise (RasterioIOError path), w)
       end.

(** Lines 103-126: what is done with a tile found on disk. *)
Definition convert_tile (lat lon : Z) (tile_path : string) : M unit :=
  print ("Using tile " +:+ tile_path) ;;
  flat ← fromfile_be_i2 tile_path;
  data ← reshape flat 3601 3601;
  let transform :=
    from_origin (inject_Z lon) (inject_Z (lat + 1)) (1 / 3600) (1 / 3600) in
  rasterio_open_w output_tif "GTiff" (nrows data) (ncols data) 1 "int16"
    "EPSG:4326" transform ;;
  dst_write output_tif data 1.

(** The inner converter loop over the longitudes still to visit; it
    leaves by [break] after a conversion.  [hgt_mode] is the script's
    variable, [None] while unbound. *)
Fixpoint convert_lons (lat : Z) (lons : list Z) (hgt_mode : option bool)
    : M (option bool) :=
  match lons with
  | [] => mret hgt_mode
  | lon :: rest =>
      let tile_path := tile_name lat lon +:+ ".hgt" in
      found ← exists_ tile_path;
      if (found : bool) then
        convert_tile lat lon tile_path ;;
        mret (Some true)
      else convert_lons lat rest hgt_mode
  end.

(** The outer converter loop; after each row it leaves by [break] when
    the flag [success] is set. *)
Fixpoint convert_lats (success : bool) (lats : list Z) (hgt_mode : option bool)
    : M (option bool) :=
  match lats with
  | [] => mret hgt_mode
  | lat :: rest =>
      hgt_mode' ← convert_lons lat (range 85 87) hgt_mode;
      if success then mret hgt_mode'
      else convert_lats success rest hgt_mode'
  end.

(** Lines 91-129: fallback or conversion, by the flag. *)
Definition fetch_or_convert (success : bool) : M (option bool) :=
  if negb success then
    download_opentopo bounds output_tif api_key ;;
    mret (Some false)
  else
    convert_lats success (range 28 30) None.

(** ** 5. Load and plot DEM *)

(** [rasterio.open(path)] for reading: a dataset written by rasterio is
    read back as written; other bytes go through the decoder. *)
Definition rasterio_open_r (path : string) : M raster :=
  λ w, match fs w !! path with
       | Some (GTiff r) => (Ok r, w)
       | Some (Raw data) =>
           match gtiff_decode E data with
           | Some r => (Ok r, w)
           | None => (Raise (RasterioIOError path), w)
           end
       | Some (Png f) =>
           match gtiff_decode E (png_encode E f) with
           | Some r => (Ok r, w)
           | None => (Raise (RasterioIOError path), w)
           end
       | None => (Raise (RasterioIOError path), w)
       end.

(** [src.read(indexes)]: one band, counted from 1. *)
Definition src_read (src : raster) (indexes : Z) : M ndarray :=
  if 1 <=? indexes then
    match bands src !! Z.to_nat (indexes - 1) with
    | Some band => mret band
    | None => raise IndexError
    end
  else raise IndexError.

(** The arguments the script passes to pyplot functions. *)
Inductive plt_args :=
| Figsize (w h : Q)
| Imshow (X : ndarray) (cmap : string)
| Label (label : string)
| Text (s : string).

(** The figure pyplot makes when none is current. *)
Definition default_figure : figure :=
  {| figsize := (32 # 5, 24 # 5); image := None; colorbar_label := None;
     title := None; axis_on := true |}.

Definition set_gcf (f : figure) (w : world) : world :=
  {| fs := fs w; stdout := stdout w; requests := requests w; gcf := Some f |}.

(** [plt.<name>(args)] for the module [matplotlib.pyplot]: the attribute
    is looked up by name, then called.  The module offers [figure],
    [imshow], [colorbar], [title], [axis] and [savefig] (among others not
    used here); it has no attribute [save]. *)
Definition plt (name : string) (args : plt_args) : M unit :=
  λ w,
    let fig := default default_figure (gcf w) in
    if String.eqb name "figure" then
      match args with
      | Figsize a b =>
          (Ok tt, set_gcf {| figsize := (a, b); image := None;
                             colorbar_label := None; title := None;
                             axis_on := true |} w)
      | _ => (Raise TypeError, w)
      end
    else if String.eqb name "imshow" then
      match args with
      | Imshow X cmap =>
          (Ok tt, set_gcf {| figsize := figsize fig; image := Some (X, cmap);
                             colorbar_label := colorbar_label fig;
                             title := title fig; axis_on := axis_on fig |} w)
      | _ => (Raise TypeError, w)
      end
    else if String.eqb name "colorbar" then
      match args, image fig with
      | Label l, Some _ =>
          (Ok tt, set_gcf {| figsize := figsize fig; image := image fig;
                             colorbar_label := Some l;
                             title := title fig; axis_on := axis_on fig |} w)
      | Label _, None => (Raise (RuntimeError "No mappable was found"), w)
      | _, _ => (Raise TypeError, w)
      end
    else if String.eqb name "title" then
      match args with
      | Text s =>
          (Ok tt, set_gcf {| figsize := figsize fig; image := image fig;
                             colorbar_label := colorbar_label fig;
                             title := Some s; axis_on := axis_on fig |} w)
      | _ => (Raise TypeError, w)
      end
    else if String.eqb name "axis" then
      match args with
      | Text s =>
          if String.eqb s "off" || String.eqb s "on" then
            (Ok tt, set_gcf {| figsize := figsize fig; image := image fig;
                               colorbar_label := colorbar_label fig;
                               title := title fig;
                               axis_on := String.eqb s "on" |} w)
          else (Raise (ValueError "Unrecognized string to axis"), w)
      | _ => (Raise TypeError, w)
      end
    else if String.eqb name "savefig" then
      match args with
      | Text fname => (Ok tt, set_fs (insert fname (Png fig)) (set_gcf fig w))
      | _ => (Raise TypeError, w)
      end
    else
      (Raise (AttributeError ("module 'matplotlib.pyplot' has no attribute '"
                              +:+ name +:+ "'")), w).

(** Lines 135-145. *)
Definition render : M unit :=
  src ← rasterio_open_r output_tif;
  dem ← src_read src 1;
  plt "figure" (Figsize 10 8) ;;
  plt "imshow" (Imshow dem "terrain") ;;
  plt "colorbar" (Label "Elevation (meters)") ;;
  plt "title" (Text "DEM – Langtang National Park") ;;
  plt "axis" (Text "off") ;;
  plt "save" (Text "langtang_heightmap.png").

(** The whole script, top to bottom. *)
Definition main : M unit :=
  success ← download_loop;
  fetch_or_convert success ;;
  render.

End Script.

(** ** Vocabulary of the properties *)

(** The files after [z.extractall(dir)], as a function of the files
    before. *)
Definition extract_fs (dir : string) (members : list (string * list byte))
    (m : gmap string content) : gmap string content :=
  foldl (λ m' member, <[path_join dir member.1 := Raw member.2]> m') m members.

(** The part of a path up to and including its last slash. *)
Definition path_head (p : string) : string :=
  substring 0 (rfind_slash_succ p) p.

(** A computation that issues no request. *)
Definition keeps_requests {A} (m : M A) : Prop :=
  ∀ w : world, requests (m w).2 = requests w.

(** The number a string of decimal digits denotes, continuing from the
    digits already read, whose value is [acc]. *)
Fixpoint digits_value (acc : N) (s : string) : N :=
  match s with
  | "" => acc
  | String c r => digits_value (10 * acc + (N_of_ascii c - 48)) r
  end.

(** Whether a character is a decimal digit. *)
Definition is_digit (c : ascii) : bool :=
  (48 <=? N_of_ascii c)%N && (N_of_ascii c <=? 57)%N.

(** Whether a string holds decimal digits only. *)
Fixpoint all_digits (s : string) : bool :=
  match s with
  | "" => true
  | String c r => is_digit c && all_digits r
  end.

(** The coordinate pairs in the order the two loops of the script visit
    them. *)
Definition grid : list (Z * Z) :=
  concat (map (λ lat, map (λ lon, (lat, lon)) (range 85 87)) (range 28 30)).

(** The answer of the server for the tile at [c]. *)
Definition tile_response (E : env) (c : Z * Z) : response :=
  http_get E (srtm_url c.1 c.2).

(** The tile at [c] is answered with status 200. *)
Definition served (E : env) (c : Z * Z) : bool :=
  status_code (tile_response E c) =? 200.

(** The tile at [c] is answered with status 200 and a body that is not
    an archive. *)
Definition bad_archive (E : env) (c : Z * Z) : Prop :=
  served E c = true ∧ zip_members E (body (tile_response E c)) = None.

(** The world after a direct attempt that was answered with a status
    other than 200. *)
Definition failed_attempt (c : Z * Z) (w : world) : world :=
  {| fs := fs w;
     stdout := stdout w ++ ["Trying direct SRTM download: " +:+ srtm_url c.1 c.2;
                            "Direct download failed."];
     requests := requests w ++ [srtm_url c.1 c.2];
     gcf := gcf w |}.

(** The URL of the fallback request of the script. *)
Definition fallback_url : string := opentopo_url bounds api_key.

(** The number of samples of a tile. *)
Definition grid_cells : nat := Z.to_nat (3601 * 3601).

(** The bytes of a tile file that repeats one sample [n] times. *)
Fixpoint repeat_pair (n : nat) (hi lo : byte) : list byte :=
  match n with
  | O => []
  | S n' => hi :: lo :: repeat_pair n' hi lo
  end.

(** The dataset the converter is to write for the tile at (lat, lon)
    holding the samples [xs]. *)
Definition tile_raster (lat lon : Z) (xs : list Z) : raster :=
  {| driver := "GTiff"; height := 3601; width := 3601; count := 1;
     dtype := "int16"; crs := "EPSG:4326";
     transform := {| af_a := 1 # 3600; af_b := 0; af_c := inject_Z lon;
                     af_d := 0; af_e := - (1 # 3600); af_f := inject_Z (lat + 1) |};
     bands := [{| nrows := 3601; ncols := 3601; items := xs |}] |}.

(** The world after the converter's line "Using tile ..." is printed. *)
Definition using_tile (tile_path : string) (w : world) : world :=
  {| fs := fs w; stdout := stdout w ++ ["Using tile " +:+ tile_path];
     requests := requests w; gcf := gcf w |}.

(** ** Sample runs

    Concrete worlds and environments at which the properties below are
    exercised. *)

(** An empty working directory, nothing printed or requested yet. *)
Definition world_0 : world :=
  {| fs := ∅; stdout := []; requests := []; gcf := None |}.

(** Every request is answered 404. *)
Definition env_404 : env :=
  {| http_get := λ _, {| status_code := 404; body := [] |};
     zip_members := λ _, None;
     gtiff_decode := λ _, None;
     gtiff_encode := λ _, [];
     png_encode := λ _, [] |}.

(** The bytes of "<html>": a page, not an archive. *)
Definition html_page : list byte := [x3c; x68; x74; x6d; x6c; x3e].

(** Every request is answered 200 with a page that is not an archive. *)
Definition env_html : env :=
  {| http_get := λ _, {| status_code := 200; body := html_page |};
     zip_members := λ _, None;
     gtiff_decode := λ _, None;
     gtiff_encode := λ _, [];
     png_encode := λ _, [] |}.

(** A short stand-in for the bytes of an archive, and for the bytes of
    the tile inside it. *)
Definition archive_bytes : list byte := [x50; x4b; x03; x04].
Definition tile_bytes : list byte := [x03; xe8; x03; xe8].

(** Only the tile N29E085 is served: status 200 and an archive with the
    one member N29E085.hgt; every other request is answered 404. *)
Definition env_only_N29E085 : env :=
  {| http_get := λ url,
       if String.eqb url (srtm_url 29 85)
       then {| status_code := 200; body := archive_bytes |}
       else {| status_code := 404; body := [] |};
     zip_members := λ data,
       match data with
       | [x50; x4b; x03; x04] => Some [("N29E085.hgt", tile_bytes)]
       | _ => None
       end;
     gtiff_decode := λ _, None;
     gtiff_encode := λ _, [];
     png_encode := λ _, [] |}.

(** Only the tile N28E085 is served, as an archive whose one member is
    named tile.hgt. *)
Definition env_renamed_member : env :=
  {| http_get := λ url,
       if String.eqb url (srtm_url 28 85)
       then {| status_code := 200; body := archive_bytes |}
       else {| status_code := 404; body := [] |};
     zip_members := λ data,
       match data with
       | [x50; x4b; x03; x04] => Some [("tile.hgt", tile_bytes)]
       | _ => None
       end;
     gtiff_decode := λ _, None;
     gtiff_encode := λ _, [];
     png_encode := λ _, [] |}.

(** The worlds the four direct attempts against [env_only_N29E085] lead
    through, from [world_0]. *)
Definition world_1 : world :=
  (download_srtm_aws env_only_N29E085 28 85 "N28E085.hgt" world_0).2.
Definition world_2 : world :=
  (download_srtm_aws env_only_N29E085 28 86 "N28E086.hgt" world_1).2.
Definition world_3 : world :=
  (download_srtm_aws env_only_N29E085 29 85 "N29E085.hgt" world_2).2.
Definition world_4 : world :=
  (download_srtm_aws env_only_N29E085 29 86 "N29E086.hgt" world_3).2.

(** A tile file holding the sample 1000 (bytes 03 e8) in every cell, and
    the same file with one stray byte at its end. *)
Definition constant_tile : list byte := repeat_pair grid_cells x03 xe8.
Definition odd_tile : list byte := constant_tile ++ [x00].

(** Working directories holding one tile file: [constant_tile],
    [odd_tile], and the four bytes [tile_bytes]. *)
Definition world_constant_tile : world :=
  {| fs := {["N28E085.hgt" := Raw constant_tile]};
     stdout := []; requests := []; gcf := None |}.
Definition world_odd_tile : world :=
  {| fs := {["N28E085.hgt" := Raw odd_tile]};
     stdout := []; requests := []; gcf := None |}.
Definition world_short_tile : world :=
  {| fs := {["N28E085.hgt" := Raw tile_bytes]};
     stdout := []; requests := []; gcf := None |}.

(** No tile is served; the fallback request is answered 200 with the
    bytes [tile_bytes]. *)
Definition env_fallback_only : env :=
  {| http_get := λ url,
       if String.eqb url fallback_url
       then {| status_code := 200; body := tile_bytes |}
       else {| status_code := 404; body := [] |};
     zip_members := λ _, None;
     gtiff_decode := λ _, None;
     gtiff_encode := λ _, [];
     png_encode := λ _, [] |}.

(** Only the tile N28E085 is served, as an archive whose one member
    N28E085.hgt is [constant_tile]. *)
Definition env_constant_N28E085 : env :=
  {| http_get := λ url,
       if String.eqb url (srtm_url 28 85)
       then {| status_code := 200; body := archive_bytes |}
       else {| status_code := 404; body := [] |};
     zip_members := λ data,
       match data with
       | [x50; x4b; x03; x04] => Some [("N28E085.hgt", constant_tile)]
       | _ => None
       end;
     gtiff_decode := λ _, None;
     gtiff_encode := λ _, [];
     png_encode := λ _, [] |}.

(** * Properties *)

(** ** Tile names *)

Lemma format_0d_2_digits (a : Z) :
  0 <= a < 100 →
  format_0d 2 a = String (digit (a / 10)) (String (digit (a mod 10)) "").
Proof.
  intros Ha.
  assert (Forall (λ a, format_0d 2 a
            = String (digit (a / 10)) (String (digit (a mod 10)) ""))
          (seqZ 0 100)) as Hall.
  { apply (bool_decide_unpack _). vm_compute. exact I. }
  rewrite Forall_seqZ in Hall. apply Hall. lia.
Qed.

Lemma format_0d_3_digits (o : Z) :
  0 <= o < 1000 →
  format_0d 3 o = String (digit (o / 100))
                    (String (digit (o / 10 mod 10)) (String (digit (o mod 10)) "")).
Proof.
  intros Ho.
  assert (Forall (λ o, format_0d 3 o
            = String (digit (o / 100))
                (String (digit (o / 10 mod 10)) (String (digit (o mod 10)) "")))
          (seqZ 0 1000)) as Hall.
  { apply (bool_decide_unpack _). vm_compute. exact I. }
  rewrite Forall_seqZ in Hall. apply Hall. lia.
Qed.

(** C9 (as amended): the latitude and longitude fields are zero-padded to
    a minimum of two and three digits; for |lat| <= 99 and |lon| <= 999
    the identifier is exactly a hemisphere letter (N for lat >= 0), two
    digits, a hemisphere letter (E for lon >= 0) and three digits, seven
    characters in all; the three documented examples hold. *)
Theorem tile_name_format :
  (∀ lat lon : Z, Z.abs lat <= 99 → Z.abs lon <= 999 →
     tile_name lat lon = tile_shape lat lon
     ∧ String.length (tile_name lat lon) = 7%nat)
  ∧ tile_name 28 85 = "N28E085"
  ∧ tile_name (-5) (-70) = "S05W070"
  ∧ tile_name 0 0 = "N00E000".
Proof.
  split; [|by vm_compute].
  intros lat lon Hlat Hlon.
  assert (tile_name lat lon = tile_shape lat lon) as Heq.
  { unfold tile_name, tile_shape.
    rewrite format_0d_2_digits, format_0d_3_digits by lia.
    by destruct (0 <=? lat), (0 <=? lon). }
  split; [exact Heq|]. by rewrite Heq.
Qed.

Lemma tile_name_format_witness :
  tile_name 28 85 = tile_shape 28 85 ∧ String.length (tile_name 28 85) = 7%nat.
Proof.
  apply (proj1 tile_name_format 28 85); vm_compute; discriminate.
Defined.

(** C9 (as stated) fails for a latitude of three digits: the field is
    not cut to two, and the identifier has eight characters. *)
Lemma tile_name_three_digit_latitude :
  tile_name 100 0 = "N100E000" ∧ String.length (tile_name 100 0) ≠ 7%nat.
Proof. split; [by vm_compute | vm_compute; lia]. Qed.

(** ** Strings *)

Lemma string_app_cons (c : ascii) (s t : string) :
  String c s +:+ t = String c (s +:+ t).
Proof. reflexivity. Qed.

Lemma string_app_assoc (s t u : string) : (s +:+ t) +:+ u = s +:+ t +:+ u.
Proof.
  induction s as [|c s IH]; [reflexivity|].
  rewrite !string_app_cons. by rewrite IH.
Qed.

Lemma string_app_length (s t : string) :
  String.length (s +:+ t) = (String.length s + String.length t)%nat.
Proof.
  induction s as [|c s IH]; [reflexivity|].
  rewrite string_app_cons. simpl. by rewrite IH.
Qed.

Lemma string_app_ne_self (s t : string) : t ≠ "" → s +:+ t ≠ s.
Proof.
  intros Ht Heq. apply (f_equal String.length) in Heq.
  rewrite string_app_length in Heq.
  destruct t; [done|]. simpl in Heq. lia.
Qed.

(** ** The monad *)

Lemma bind_ok {A B} (m : M A) (k : A → M B) (w w' : world) (a : A) :
  m w = (Ok a, w') → (m ≫= k) w = k a w'.
Proof. intros H. unfold mbind, M_bind. by rewrite H. Qed.

Lemma bind_raise {A B} (m : M A) (k : A → M B) (w w' : world) (e : exn) :
  m w = (Raise e, w') → (m ≫= k) w = (Raise e, w').
Proof. intros H. unfold mbind, M_bind. by rewrite H. Qed.

Lemma set_fs_set_fs (g h : gmap string content → gmap string content) (w : world) :
  set_fs g (set_fs h w) = set_fs (g ∘ h) w.
Proof. reflexivity. Qed.

Lemma set_fs_ext (g h : gmap string content → gmap string content) (w : world) :
  g (fs w) = h (fs w) → set_fs g w = set_fs h w.
Proof. unfold set_fs. by intros ->. Qed.

Lemma set_fs_id (g : gmap string content → gmap string content) (w : world) :
  g (fs w) = fs w → set_fs g w = w.
Proof. unfold set_fs. intros ->. by destruct w. Qed.

(** ** Streaming a response body to a file *)

Lemma chunks_of_concat (fuel n : nat) (data : list byte) :
  (0 < n)%nat → (length data ≤ fuel)%nat → concat (chunks_of fuel n data) = data.
Proof.
  intros Hn. revert data.
  induction fuel as [|fuel IH]; intros data Hlen.
  - destruct data; [done | simpl in Hlen; lia].
  - destruct data as [|x data]; [done|].
    cbn [chunks_of concat]. rewrite IH.
    + apply take_drop.
    + rewrite length_drop. simpl in *. lia.
Qed.

Lemma iter_content_concat (n : nat) (r : response) :
  (0 < n)%nat → concat (iter_content n r) = body r.
Proof. intros Hn. by apply chunks_of_concat. Qed.

Lemma write_chunks_spec (path : string) (chunks : list (list byte)) :
  ∀ (w : world) (data : list byte),
    fs w !! path = Some (Raw data) →
    write_chunks path chunks w
    = (Ok tt, set_fs (insert path (Raw (data ++ concat chunks))) w).
Proof.
  induction chunks as [|chunk rest IH]; intros w data Hdata.
  - cbn [write_chunks concat]. unfold mret, M_ret. f_equal. symmetry.
    apply set_fs_id. rewrite app_nil_r. by apply insert_id.
  - cbn [write_chunks concat].
    erewrite bind_ok; last reflexivity.
    rewrite (IH _ (data ++ chunk)).
    + f_equal. rewrite set_fs_set_fs. apply set_fs_ext. simpl.
      rewrite Hdata, insert_insert_eq. by rewrite app_assoc.
    + simpl. rewrite Hdata. apply lookup_insert_eq.
Qed.

Lemma stream_bind {B} (path : string) (r : response) (k : M B) (w : world) :
  (open_wb path ≫= λ _, write_chunks path (iter_content 1024 r) ≫= λ _, k) w
  = k (set_fs (insert path (Raw (body r))) w).
Proof.
  erewrite bind_ok; last reflexivity.
  erewrite bind_ok; last apply write_chunks_spec, lookup_insert_eq.
  f_equal. rewrite set_fs_set_fs. apply set_fs_ext. simpl.
  rewrite insert_insert_eq, iter_content_concat by lia. done.
Qed.

(** ** The fallback fetcher *)

(** C6: on a status other than 200 download_opentopo raises and leaves
    every file as it was (nothing is written to the destination); on
    status 200 the chunks of the response, concatenated in order, are the
    body, and the destination file holds exactly the body. *)
Theorem download_opentopo_spec (E : env) (bnds : pyfloat * pyfloat * pyfloat * pyfloat)
    (out_path key : string) (w : world) :
  let url := opentopo_url bnds key in
  let r := http_get E url in
  (status_code r ≠ 200 →
     download_opentopo E bnds out_path key w
     = (Raise (RuntimeError "OpenTopography request failed."),
        {| fs := fs w;
           stdout := stdout w ++ ["Trying OpenTopography fallback..."];
           requests := requests w ++ [url]; gcf := gcf w |}))
  ∧ (status_code r = 200 →
     concat (iter_content 1024 r) = body r
     ∧ download_opentopo E bnds out_path key w
       = (Ok true,
          {| fs := <[out_path := Raw (body r)]> (fs w);
             stdout := stdout w ++ ["Trying OpenTopography fallback..."]
                         ++ ["OpenTopography download successful."];
             requests := requests w ++ [url]; gcf := gcf w |})).
Proof.
  intros url r. split; intros Hst.
  - unfold download_opentopo.
    erewrite bind_ok; last reflexivity.
    erewrite bind_ok; last reflexivity.
    fold url r. apply Z.eqb_neq in Hst. by rewrite Hst.
  - split; [apply iter_content_concat; lia|].
    unfold download_opentopo.
    erewrite bind_ok; last reflexivity.
    erewrite bind_ok; last reflexivity.
    fold url r. apply Z.eqb_eq in Hst. rewrite Hst. cbn [negb].
    erewrite bind_ok; last reflexivity.
    erewrite bind_ok; last apply write_chunks_spec, lookup_insert_eq.
    erewrite bind_ok; last reflexivity.
    unfold mret, M_ret, set_fs. cbn. f_equal. f_equal.
    + rewrite insert_insert_eq. f_equal. f_equal.
      apply iter_content_concat. lia.
    + by rewrite <- app_assoc.
Qed.

Lemma download_opentopo_spec_witness :
  download_opentopo env_404 bounds output_tif api_key world_0
  = (Raise (RuntimeError "OpenTopography request failed."),
     {| fs := ∅; stdout := ["Trying OpenTopography fallback..."];
        requests := [opentopo_url bounds api_key]; gcf := None |}).
Proof.
  apply (proj1 (download_opentopo_spec env_404 bounds output_tif api_key world_0)).
  vm_compute. discriminate.
Defined.

(** Whatever the answer, download_opentopo issues one request, for the
    URL built from its arguments. *)
Lemma download_opentopo_requests (E : env) (bnds : pyfloat * pyfloat * pyfloat * pyfloat)
    (out_path key : string) (w : world) :
  requests (download_opentopo E bnds out_path key w).2
  = requests w ++ [opentopo_url bnds key].
Proof.
  unfold download_opentopo.
  erewrite bind_ok; last reflexivity.
  erewrite bind_ok; last reflexivity.
  destruct (negb _); [reflexivity|].
  rewrite stream_bind. reflexivity.
Qed.

(** C7: the URL download_opentopo requests is the fixed prefix followed
    by south, north, west and east taken from the bounds, then
    "outputFormat=GTiff" and "apikey=" with nothing between them; for the
    script's bounding box the coordinates print as 28.15, 28.6, 85.25 and
    85.9. *)
Theorem opentopo_url_format :
  (∀ (minlon minlat maxlon maxlat : pyfloat) (key : string),
     opentopo_url (minlon, minlat, maxlon, maxlat) key
     = "https://portal.opentopography.org/API/globaldem?demtype=SRTMGL1&south="
       +:+ float_str minlat +:+ "&north=" +:+ float_str maxlat
       +:+ "&west=" +:+ float_str minlon +:+ "&east=" +:+ float_str maxlon
       +:+ "&outputFormat=GTiffapikey=" +:+ key)
  ∧ (∀ key : string,
       opentopo_url bounds key
       = "https://portal.opentopography.org/API/globaldem?demtype=SRTMGL1&south=28.15&north=28.6&west=85.25&east=85.9&outputFormat=GTiffapikey="
         +:+ key)
  ∧ (∀ (E : env) (bnds : pyfloat * pyfloat * pyfloat * pyfloat)
       (out_path key : string) (w : world),
       requests (download_opentopo E bnds out_path key w).2
       = requests w ++ [opentopo_url bnds key]).
Proof.
  split; [|split].
  - intros. unfold opentopo_url.
    rewrite !string_app_assoc. reflexivity.
  - intros. reflexivity.
  - intros. apply download_opentopo_requests.
Qed.

(** ** The direct fetcher *)

Lemma extractall_spec (members : list (string * list byte)) (dir : string) :
  ∀ w : world,
    extractall members dir w = (Ok tt, set_fs (extract_fs dir members) w).
Proof.
  induction members as [|[name data] rest IH]; intros w.
  - cbn. unfold mret, M_ret. f_equal. symmetry. by apply set_fs_id.
  - cbn [extractall]. erewrite bind_ok; last reflexivity.
    rewrite IH. reflexivity.
Qed.

Lemma extract_fs_lookup_is_Some (dir : string) (members : list (string * list byte)) :
  ∀ (m : gmap string content) (path : string),
    is_Some (m !! path) → is_Some (extract_fs dir members m !! path).
Proof.
  induction members as [|[name data] rest IH]; intros m path Hm; [done|].
  cbn. apply IH. rewrite lookup_insert. case_decide; [eauto | done].
Qed.

(** A path that holds a file after the extraction held one before, or
    is the target of a member. *)
Lemma extract_fs_lookup_inv (dir : string) (members : list (string * list byte)) :
  ∀ (m : gmap string content) (path : string),
    is_Some (extract_fs dir members m !! path) →
    is_Some (m !! path)
    ∨ ∃ name data, (name, data) ∈ members ∧ path_join dir name = path.
Proof.
  induction members as [|[name data] rest IH]; intros m path Hm; [by left|].
  cbn in Hm. apply IH in Hm as [Hm | (name' & data' & Hin & Hjoin)].
  - rewrite lookup_insert in Hm. case_decide as Heq.
    + right. exists name, data. split; [apply list_elem_of_here | done].
    + by left.
  - right. exists name', data'. split; [by apply list_elem_of_further | done].
Qed.

(** A member's target holds a file after the extraction. *)
Lemma extract_fs_lookup_member (dir : string) (members : list (string * list byte)) :
  ∀ (m : gmap string content) (name : string) (data : list byte),
    (name, data) ∈ members →
    is_Some (extract_fs dir members m !! path_join dir name).
Proof.
  induction members as [|[name' data'] rest IH]; intros m name data Hin.
  - by apply elem_of_nil in Hin.
  - apply elem_of_cons in Hin as [[= -> ->] | Hin].
    + cbn. apply extract_fs_lookup_is_Some. rewrite lookup_insert_eq. eauto.
    + cbn. by eapply IH.
Qed.

(** The three ways a call of download_srtm_aws can end. *)
Lemma download_srtm_aws_cases (E : env) (lat lon : Z) (out_path : string) (w : world) :
  let url := srtm_url lat lon in
  let r := http_get E url in
  let zip_path := out_path +:+ ".zip" in
  let w1 := {| fs := fs w;
               stdout := stdout w ++ ["Trying direct SRTM download: " +:+ url];
               requests := requests w ++ [url]; gcf := gcf w |} in
  download_srtm_aws E lat lon out_path w =
    if negb (status_code r =? 200) then
      (Ok false, {| fs := fs w;
                    stdout := stdout w1 ++ ["Direct download failed."];
                    requests := requests w1; gcf := gcf w |})
    else
      match zip_members E (body r) with
      | None => (Raise BadZipFile, set_fs (insert zip_path (Raw (body r))) w1)
      | Some members =>
          (Ok true,
           {| fs := delete zip_path
                      (extract_fs (dirname out_path) members
                         (<[zip_path := Raw (body r)]> (fs w)));
              stdout := stdout w1 ++ ["Direct SRTM download successful."];
              requests := requests w1; gcf := gcf w |})
      end.
Proof.
  intros url r zip_path w1. unfold download_srtm_aws.
  erewrite bind_ok; last reflexivity.
  erewrite bind_ok; last reflexivity.
  fold url r w1. destruct (negb (status_code r =? 200)); [reflexivity|].
  fold zip_path. rewrite stream_bind.
  change (set_fs _ _) with (set_fs (insert zip_path (Raw (body r))) w1).
  unfold ZipFile, read_bytes.
  set (w2 := set_fs (insert zip_path (Raw (body r))) w1).
  assert (fs w2 !! zip_path = Some (Raw (body r))) as Hz by apply lookup_insert_eq.
  destruct (zip_members E (body r)) as [members|] eqn:Hzip.
  - erewrite bind_ok; last first.
    { erewrite bind_ok; last by rewrite Hz. rewrite Hzip. reflexivity. }
    erewrite bind_ok; last apply extractall_spec.
    assert (is_Some (fs (set_fs (extract_fs (dirname out_path) members) w2) !! zip_path))
      as [x Hx].
    { apply extract_fs_lookup_is_Some. rewrite Hz. eauto. }
    erewrite bind_ok; last by (unfold remove; rewrite Hx).
    reflexivity.
  - erewrite bind_raise; first reflexivity.
    erewrite bind_ok; last by rewrite Hz. by rewrite Hzip.
Qed.

(** C1 (as amended): on a status other than 200 download_srtm_aws
    returns false, prints the failure line, does not raise and leaves
    every file as it was; on status 200 with a body that is an archive,
    the body is written to out_path + ".zip", the members are extracted
    into the directory of out_path, the temporary file is removed and the
    result is true. *)
Theorem download_srtm_aws_spec (E : env) (lat lon : Z) (out_path : string) (w : world) :
  let url := srtm_url lat lon in
  let r := http_get E url in
  let zip_path := out_path +:+ ".zip" in
  (status_code r ≠ 200 →
     download_srtm_aws E lat lon out_path w
     = (Ok false,
        {| fs := fs w;
           stdout := stdout w ++ ["Trying direct SRTM download: " +:+ url]
                       ++ ["Direct download failed."];
           requests := requests w ++ [url]; gcf := gcf w |}))
  ∧ (∀ members : list (string * list byte),
       status_code r = 200 → zip_members E (body r) = Some members →
       download_srtm_aws E lat lon out_path w
       = (Ok true,
          {| fs := delete zip_path
                     (extract_fs (dirname out_path) members
                        (<[zip_path := Raw (body r)]> (fs w)));
             stdout := stdout w ++ ["Trying direct SRTM download: " +:+ url]
                         ++ ["Direct SRTM download successful."];
             requests := requests w ++ [url]; gcf := gcf w |})).
Proof.
  intros url r zip_path. split.
  - intros Hst. rewrite download_srtm_aws_cases. fold url r.
    apply Z.eqb_neq in Hst. rewrite Hst. cbn. by rewrite <- app_assoc.
  - intros members Hst Hzip. rewrite download_srtm_aws_cases. fold url r zip_path.
    apply Z.eqb_eq in Hst. rewrite Hst, Hzip. cbn. by rewrite <- app_assoc.
Qed.

Lemma download_srtm_aws_spec_witness :
  download_srtm_aws env_only_N29E085 29 85 "N29E085.hgt" world_0
  = (Ok true,
     {| fs := delete "N29E085.hgt.zip"
                (extract_fs "" [("N29E085.hgt", tile_bytes)]
                   (<["N29E085.hgt.zip" := Raw archive_bytes]> ∅));
        stdout := ["Trying direct SRTM download: " +:+ srtm_url 29 85;
                   "Direct SRTM download successful."];
        requests := [srtm_url 29 85]; gcf := None |}).
Proof.
  apply (proj2 (download_srtm_aws_spec env_only_N29E085 29 85 "N29E085.hgt" world_0)
           [("N29E085.hgt", tile_bytes)]); reflexivity.
Defined.

(** C1 (as stated) fails on a 200 response whose body is not an
    archive: the call raises BadZipFile instead of returning true, and
    the temporary file stays behind. *)
Lemma download_srtm_aws_bad_archive :
  status_code (http_get env_html (srtm_url 28 85)) = 200
  ∧ download_srtm_aws env_html 28 85 "N28E085.hgt" world_0
    = (Raise BadZipFile,
       {| fs := {["N28E085.hgt.zip" := Raw html_page]};
          stdout := ["Trying direct SRTM download: " +:+ srtm_url 28 85];
          requests := [srtm_url 28 85]; gcf := None |}).
Proof. split; [reflexivity | by vm_compute]. Qed.

(** ** Paths *)

Lemma substring_0_0 (s : string) : substring 0 0 s = "".
Proof. by destruct s. Qed.

Lemma substring_0_length (s : string) : substring 0 (String.length s) s = s.
Proof. induction s as [|c s IH]; [done|]. simpl. by rewrite IH. Qed.

Lemma path_head_cons (c : ascii) (r : string) :
  path_head (String c r)
  = match rfind_slash_succ r with
    | O => if Ascii.eqb c "/" then "/" else ""
    | S _ => String c (path_head r)
    end.
Proof.
  unfold path_head. cbn [rfind_slash_succ].
  destruct (rfind_slash_succ r) as [|i].
  - destruct (Ascii.eqb c "/") eqn:Hc; [|done].
    apply Ascii.eqb_eq in Hc as ->. cbn. by rewrite substring_0_0.
  - reflexivity.
Qed.

Lemma basename_cons (c : ascii) (r : string) :
  basename (String c r)
  = match rfind_slash_succ r with
    | O => if Ascii.eqb c "/" then r else String c r
    | S _ => basename r
    end.
Proof.
  unfold basename. cbn [rfind_slash_succ String.length].
  destruct (rfind_slash_succ r) as [|i].
  - destruct (Ascii.eqb c "/").
    + cbn. rewrite Nat.sub_0_r. apply substring_0_length.
    + rewrite Nat.sub_0_r. apply (substring_0_length (String c r)).
  - reflexivity.
Qed.

Lemma path_head_basename (p : string) : p = path_head p +:+ basename p.
Proof.
  induction p as [|c r IH]; [done|].
  rewrite path_head_cons, basename_cons.
  destruct (rfind_slash_succ r) as [|i] eqn:Hi.
  - destruct (Ascii.eqb c "/") eqn:Hc; [|done].
    by apply Ascii.eqb_eq in Hc as ->.
  - rewrite string_app_cons. by rewrite <- IH.
Qed.

Lemma path_head_nonempty (r : string) :
  rfind_slash_succ r ≠ O → path_head r ≠ "".
Proof.
  destruct r as [|c r]; [done|].
  rewrite path_head_cons. cbn [rfind_slash_succ].
  destruct (rfind_slash_succ r); [|done].
  by destruct (Ascii.eqb c "/").
Qed.

Lemma endswith_slash_cons (c : ascii) (s : string) :
  s ≠ "" → endswith_slash (String c s) = endswith_slash s.
Proof. by destruct s. Qed.

Lemma path_head_endswith (p : string) :
  path_head p = "" ∨ endswith_slash (path_head p) = true.
Proof.
  induction p as [|c r IH]; [by left|].
  rewrite path_head_cons.
  destruct (rfind_slash_succ r) as [|i] eqn:Hi.
  - destruct (Ascii.eqb c "/"); [by right | by left].
  - right. assert (path_head r ≠ "") as Hne by (apply path_head_nonempty; lia).
    rewrite endswith_slash_cons by done. by destruct IH.
Qed.

Lemma rstrip_slash_split (s : string) :
  ∃ j : nat, s = rstrip_slash s +:+ slashes j.
Proof.
  induction s as [|c s [j IH]]; [by exists O|].
  cbn [rstrip_slash]. destruct (rstrip_slash s) as [|c' s'] eqn:Hs.
  - destruct (Ascii.eqb c "/") eqn:Hc.
    + apply Ascii.eqb_eq in Hc as ->. exists (S j). cbn. by rewrite IH at 1.
    + exists j. rewrite string_app_cons. by rewrite IH at 1.
  - exists j. rewrite string_app_cons. by rewrite IH at 1.
Qed.

Lemma rstrip_slash_endswith (s : string) : endswith_slash (rstrip_slash s) = false.
Proof.
  induction s as [|c s IH]; [done|].
  cbn [rstrip_slash]. destruct (rstrip_slash s) as [|c' s'] eqn:Hs.
  - by destruct (Ascii.eqb c "/") eqn:Hc; cbn; rewrite ?Hc.
  - by rewrite endswith_slash_cons.
Qed.

Lemma slashes_length (j : nat) : String.length (slashes j) = j.
Proof. induction j as [|j IH]; [done|]. cbn. by rewrite IH. Qed.

(** os.path.dirname, by cases on the head. *)
Lemma dirname_cases (p : string) :
  (dirname p = path_head p
   ∧ (path_head p = "" ∨ endswith_slash (path_head p) = true))
  ∨ (dirname p = rstrip_slash (path_head p)
     ∧ rstrip_slash (path_head p) ≠ "").
Proof.
  unfold dirname. fold (path_head p).
  destruct (negb (String.eqb (path_head p) "")
            && negb (String.eqb (path_head p) (slashes (String.length (path_head p)))))
    eqn:Hcond.
  - right. split; [done|]. intros Hr.
    apply andb_true_iff in Hcond as [_ Hne].
    apply negb_true_iff, String.eqb_neq in Hne. apply Hne.
    destruct (rstrip_slash_split (path_head p)) as [j Hj].
    rewrite Hr in Hj. change ("" +:+ slashes j) with (slashes j) in Hj.
    rewrite Hj. by rewrite slashes_length.
  - left. split; [done|]. apply path_head_endswith.
Qed.

(** A relative name joined to the directory of [p] gives [p] only when
    it is the last component of [p]. *)
Lemma path_join_dirname_inv (p name : string) :
  startswith_slash name = false →
  path_join (dirname p) name = p →
  name = basename p.
Proof.
  intros Hrel Hjoin. unfold path_join in Hjoin. rewrite Hrel in Hjoin.
  pose proof (path_head_basename p) as Hp.
  destruct (dirname_cases p) as [[Hd Hh] | [Hd Hne]]; rewrite Hd in Hjoin.
  - assert (String.eqb (path_head p) "" || endswith_slash (path_head p) = true) as Hc.
    { destruct Hh as [-> | ->]; [done | by rewrite orb_true_r]. }
    rewrite Hc in Hjoin. rewrite Hp in Hjoin at 2.
    by apply (inj (String.app _)) in Hjoin.
  - assert (String.eqb (rstrip_slash (path_head p)) "" = false) as Hc1
      by by apply String.eqb_neq.
    rewrite Hc1, rstrip_slash_endswith in Hjoin. cbn [orb] in Hjoin.
    destruct (rstrip_slash_split (path_head p)) as [j Hj].
    rewrite Hp in Hjoin at 2. rewrite Hj in Hjoin at 2.
    rewrite string_app_assoc in Hjoin.
    apply (inj (String.app _)) in Hjoin.
    destruct j as [|j].
    + exfalso. cbn in Hj.
      assert (path_head p = rstrip_slash (path_head p)) as Heq.
      { rewrite Hj at 1. clear. induction (rstrip_slash (path_head p)) as [|c s IH]; [done|].
        rewrite string_app_cons. by rewrite IH. }
      destruct (path_head_endswith p) as [He | He].
      * apply Hne. by rewrite <- Heq.
      * rewrite Heq, rstrip_slash_endswith in He. done.
    + cbn in Hjoin. injection Hjoin as Hjoin. destruct j as [|j]; [done|].
      change ("" +:+ name) with name in Hjoin. by rewrite Hjoin in Hrel.
Qed.


(** C10: a true return of download_srtm_aws does not put a file at
    out_path.  The run against [env_renamed_member] returns true and
    leaves nothing at out_path.  In general, after a true return the
    files are those before the call plus every member of the archive,
    each at its own name joined to the directory of out_path, the
    temporary out_path + ".zip" being gone; and when a file newly exists at
    out_path, some member's target is out_path, so that member (its name
    being relative) is named exactly as the last component of out_path. *)
Theorem download_srtm_aws_member_names :
  (∃ w' : world,
     download_srtm_aws env_renamed_member 28 85 "N28E085.hgt" world_0 = (Ok true, w')
     ∧ fs w' !! "N28E085.hgt" = None
     ∧ is_Some (fs w' !! "tile.hgt"))
  ∧ (∀ (E : env) (lat lon : Z) (out_path : string) (w w' : world),
       download_srtm_aws E lat lon out_path w = (Ok true, w') →
       ∃ members : list (string * list byte),
         zip_members E (body (http_get E (srtm_url lat lon))) = Some members
         ∧ fs w'
           = delete (out_path +:+ ".zip")
               (extract_fs (dirname out_path) members
                  (<[out_path +:+ ".zip" := Raw (body (http_get E (srtm_url lat lon)))]>
                     (fs w)))
         ∧ (∀ name data, (name, data) ∈ members →
              path_join (dirname out_path) name ≠ out_path +:+ ".zip" →
              is_Some (fs w' !! path_join (dirname out_path) name))
         ∧ (fs w !! out_path = None → is_Some (fs w' !! out_path) →
              ∃ name data,
                (name, data) ∈ members
                ∧ path_join (dirname out_path) name = out_path
                ∧ (startswith_slash name = false → name = basename out_path))).
Proof.
  split.
  { eexists. split; [by vm_compute|]. split; [by vm_compute|].
    vm_compute. eauto. }
  intros E lat lon out_path w w' Hrun.
  rewrite download_srtm_aws_cases in Hrun.
  destruct (negb _); [done|].
  destruct (zip_members E _) as [members|]; [|done].
  injection Hrun as <-. exists members. cbn [fs].
  split; [done|]. split; [done|]. split.
  - intros name data Hin Hne. rewrite lookup_delete_ne by done.
    by eapply extract_fs_lookup_member.
  - intros Hnew Hex.
    assert (out_path +:+ ".zip" ≠ out_path) as Hzip by by apply string_app_ne_self.
    rewrite lookup_delete_ne in Hex by done.
    apply extract_fs_lookup_inv in Hex as [Hex | (name & data & Hin & Hjoin)].
    + rewrite lookup_insert_ne, Hnew in Hex by done. by destruct Hex.
    + exists name, data. split; [done|]. split; [done|].
      intros Hrel. by apply path_join_dirname_inv.
Qed.

Lemma download_srtm_aws_member_names_witness :
  ∃ members : list (string * list byte),
    zip_members env_only_N29E085
      (body (http_get env_only_N29E085 (srtm_url 29 85))) = Some members
    ∧ (∀ name data, (name, data) ∈ members →
         path_join (dirname "N29E085.hgt") name ≠ "N29E085.hgt" +:+ ".zip" →
         is_Some (fs (download_srtm_aws env_only_N29E085 29 85 "N29E085.hgt" world_0).2
                  !! path_join (dirname "N29E085.hgt") name)).
Proof.
  destruct (proj2 download_srtm_aws_member_names env_only_N29E085 29 85
              "N29E085.hgt" world_0
              (download_srtm_aws env_only_N29E085 29 85 "N29E085.hgt" world_0).2)
    as (members & Hzip & _ & Hmem & _).
  - vm_compute. reflexivity.
  - exists members. split; [exact Hzip | exact Hmem].
Defined.

(** ** The download loop *)

Lemma keeps_requests_bind {A B} (m : M A) (k : A → M B) :
  keeps_requests m → (∀ a, keeps_requests (k a)) → keeps_requests (m ≫= k).
Proof.
  intros Hm Hk w. specialize (Hm w). unfold mbind, M_bind.
  destruct (m w) as [[a|e] w1]; cbn in *; [|done].
  by rewrite Hk.
Qed.

Lemma keeps_requests_ret {A} (a : A) : keeps_requests (mret a).
Proof. by intros w. Qed.

Lemma keeps_requests_raise {A} (e : exn) : keeps_requests (@raise A e).
Proof. by intros w. Qed.

Lemma keeps_requests_print (line : string) : keeps_requests (print line).
Proof. by intros w. Qed.

Lemma keeps_requests_modify_fs (g : gmap string content → gmap string content) :
  keeps_requests (modify_fs g).
Proof. by intros w. Qed.

Lemma keeps_requests_exists (path : string) : keeps_requests (exists_ path).
Proof. by intros w. Qed.

Lemma keeps_requests_read_bytes (E : env) (path : string) :
  keeps_requests (read_bytes E path).
Proof. intros w. unfold read_bytes. by repeat case_match. Qed.

Lemma keeps_requests_dst_write (path : string) (data : ndarray) (i : Z) :
  keeps_requests (dst_write path data i).
Proof. intros w. unfold dst_write. by repeat case_match. Qed.

Lemma keeps_requests_rasterio_open_r (E : env) (path : string) :
  keeps_requests (rasterio_open_r E path).
Proof. intros w. unfold rasterio_open_r. by repeat case_match. Qed.

Lemma keeps_requests_plt (name : string) (args : plt_args) :
  keeps_requests (plt name args).
Proof. intros w. unfold plt. by repeat case_match. Qed.

Create HintDb requests.

#[local] Hint Resolve keeps_requests_ret keeps_requests_raise keeps_requests_print
  keeps_requests_modify_fs keeps_requests_exists keeps_requests_read_bytes
  keeps_requests_dst_write keeps_requests_rasterio_open_r keeps_requests_plt
  : requests.

Ltac keeps_requests :=
  repeat first
    [ solve [auto with requests]
    | apply keeps_requests_bind; [|intros ?]
    | match goal with |- keeps_requests (if ?b then _ else _) => destruct b end
    | match goal with |- keeps_requests (match ?o with _ => _ end) => destruct o end ].

Lemma keeps_requests_convert_tile (E : env) (lat lon : Z) (tile_path : string) :
  keeps_requests (convert_tile E lat lon tile_path).
Proof.
  unfold convert_tile, fromfile_be_i2, reshape, rasterio_open_w. keeps_requests.
Qed.

#[local] Hint Resolve keeps_requests_convert_tile : requests.

Lemma keeps_requests_convert_lons (E : env) (lat : Z) (lons : list Z) (h : option bool) :
  keeps_requests (convert_lons E lat lons h).
Proof.
  induction lons as [|lon rest IH]; cbn [convert_lons]; keeps_requests.
Qed.

#[local] Hint Resolve keeps_requests_convert_lons : requests.

Lemma keeps_requests_convert_lats (E : env) (success : bool) (lats : list Z) :
  ∀ h : option bool, keeps_requests (convert_lats E success lats h).
Proof.
  induction lats as [|lat rest IH]; intros h; cbn [convert_lats]; keeps_requests.
Qed.

Lemma keeps_requests_render (E : env) : keeps_requests (render E).
Proof. unfold render, src_read. keeps_requests. Qed.

#[local] Hint Resolve keeps_requests_convert_lats keeps_requests_render : requests.

Lemma download_srtm_aws_requests (E : env) (lat lon : Z) (out_path : string) (w : world) :
  requests (download_srtm_aws E lat lon out_path w).2 = requests w ++ [srtm_url lat lon].
Proof.
  rewrite download_srtm_aws_cases.
  destruct (negb _); [done|]. by destruct (zip_members E _).
Qed.

(** One row of the grid: both longitudes are tried, whatever the first
    attempt returned. *)
Lemma download_lons_row (E : env) (lat : Z) (success b1 b2 : bool) (w w1 w2 : world) :
  download_srtm_aws E lat 85 (tile_name lat 85 +:+ ".hgt") w = (Ok b1, w1) →
  download_srtm_aws E lat 86 (tile_name lat 86 +:+ ".hgt") w1 = (Ok b2, w2) →
  download_lons E lat (range 85 87) success w = (Ok (success || b1 || b2), w2).
Proof.
  intros H1 H2. change (range 85 87) with [85; 86]. cbn [download_lons].
  erewrite bind_ok; last exact H1.
  erewrite bind_ok; last exact H2.
  by destruct success, b1, b2.
Qed.

(** Requests made by the stages after the download loop: one, for the
    fallback URL, when the flag is false; none when it is true. *)
Lemma after_download_requests (E : env) (success : bool) (w : world) :
  requests ((fetch_or_convert E success ≫= λ _, render E) w).2
  = requests w ++ (if success then [] else [opentopo_url bounds api_key]).
Proof.
  destruct success.
  - rewrite app_nil_r.
    assert (keeps_requests (fetch_or_convert E true ≫= λ _, render E)) as Hk
      by (unfold fetch_or_convert; cbn [negb]; keeps_requests).
    apply Hk.
  - unfold fetch_or_convert. cbn [negb].
    pose proof (download_opentopo_requests E bounds output_tif api_key w) as Hreq.
    unfold mbind, M_bind.
    destruct (download_opentopo E bounds output_tif api_key w) as [[a|e] w1];
      cbn in *; [|done].
    unfold mret, M_ret. rewrite <- Hreq. apply keeps_requests_render.
Qed.

(** C2: whatever the four direct attempts return, download_srtm_aws is
    called for (28,85), (28,86), (29,85) and (29,86) in this order, each
    from the state the previous one left; the flag the loop ends with is
    true exactly when some attempt returned true; and the script requests
    the fallback URL, which download_opentopo does whenever it is called,
    exactly when the flag is false. *)
Theorem download_loop_spec (E : env) (w w1 w2 w3 w4 : world) (b1 b2 b3 b4 : bool) :
  download_srtm_aws E 28 85 "N28E085.hgt" w = (Ok b1, w1) →
  download_srtm_aws E 28 86 "N28E086.hgt" w1 = (Ok b2, w2) →
  download_srtm_aws E 29 85 "N29E085.hgt" w2 = (Ok b3, w3) →
  download_srtm_aws E 29 86 "N29E086.hgt" w3 = (Ok b4, w4) →
  let success := b1 || b2 || b3 || b4 in
  download_loop E w = (Ok success, w4)
  ∧ requests w4
    = requests w ++ [srtm_url 28 85; srtm_url 28 86; srtm_url 29 85; srtm_url 29 86]
  ∧ (success = true ↔ b1 = true ∨ b2 = true ∨ b3 = true ∨ b4 = true)
  ∧ requests (main E w).2
    = requests w4 ++ (if success then [] else [opentopo_url bounds api_key]).
Proof.
  intros H1 H2 H3 H4 success.
  assert (download_loop E w = (Ok success, w4)) as Hloop.
  { unfold download_loop. change (range 28 30) with [28; 29]. cbn [download_lats].
    erewrite bind_ok; last by (eapply download_lons_row; [exact H1 | exact H2]).
    erewrite bind_ok; last by (eapply download_lons_row; [exact H3 | exact H4]).
    reflexivity. }
  split; [exact Hloop|]. split; [|split].
  - pose proof (download_srtm_aws_requests E 28 85 "N28E085.hgt" w) as R1.
    pose proof (download_srtm_aws_requests E 28 86 "N28E086.hgt" w1) as R2.
    pose proof (download_srtm_aws_requests E 29 85 "N29E085.hgt" w2) as R3.
    pose proof (download_srtm_aws_requests E 29 86 "N29E086.hgt" w3) as R4.
    rewrite H1 in R1. rewrite H2 in R2. rewrite H3 in R3. rewrite H4 in R4.
    cbn [snd] in *. rewrite R4, R3, R2, R1. by rewrite <- !app_assoc.
  - unfold success. destruct b1, b2, b3, b4; cbn; intuition discriminate.
  - unfold main. erewrite bind_ok; last exact Hloop.
    apply after_download_requests.
Qed.

Lemma download_loop_spec_witness :
  download_loop env_only_N29E085 world_0 = (Ok true, world_4)
  ∧ requests world_4
    = [srtm_url 28 85; srtm_url 28 86; srtm_url 29 85; srtm_url 29 86].
Proof.
  destruct (download_loop_spec env_only_N29E085 world_0 world_1 world_2 world_3
              world_4 false false true false) as (Hloop & Hreq & _);
    [by vm_compute..|].
  split; [exact Hloop | exact Hreq].
Defined.

(** ** The converter *)

Lemma be_i2_length (data : list byte) :
  length (be_i2 data) = (length data / 2)%nat.
Proof.
  assert (∀ n (l : list byte), (length l < n)%nat →
            length (be_i2 l) = (length l / 2)%nat) as Hind.
  { induction n as [|n IH]; intros l Hl; [lia|].
    destruct l as [|hi [|lo rest]]; [done | done |].
    cbn [be_i2 length]. rewrite IH by (cbn in Hl; lia).
    change (S (S (length rest))) with (1 * 2 + length rest)%nat.
    rewrite Nat.div_add_l by lia. lia. }
  apply (Hind (S (length data))). lia.
Qed.

Lemma be_i2_int16 (data : list byte) :
  Forall (λ v, -32768 <= v <= 32767) (be_i2 data).
Proof.
  assert (∀ n (l : list byte), (length l < n)%nat →
            Forall (λ v, -32768 <= v <= 32767) (be_i2 l)) as Hind.
  { induction n as [|n IH]; intros l Hl; [lia|].
    destruct l as [|hi [|lo rest]]; [by constructor | by constructor |].
    cbn [be_i2]. constructor; [|apply IH; cbn in Hl; lia].
    assert (0 <= byte_val hi < 256 ∧ 0 <= byte_val lo < 256) as [Hhi Hlo].
    { unfold byte_val. pose proof (Byte.to_N_bounded hi). pose proof (Byte.to_N_bounded lo).
      lia. }
    unfold int16_of. case_match; lia. }
  apply (Hind (S (length data))). lia.
Qed.

(** Creating the dataset and writing its one band. *)
Lemma open_write_band (path drv dt cr : string) (h wd : Z) (tr : affine)
    (data : ndarray) (w : world) :
  nrows data = h → ncols data = wd →
  (rasterio_open_w path drv h wd 1 dt cr tr ≫= λ _, dst_write path data 1) w
  = (Ok tt,
     set_fs (insert path (GTiff {|
       driver := drv; height := h; width := wd; count := 1; dtype := dt;
       crs := cr; transform := tr; bands := [data] |})) w).
Proof.
  intros Hh Hw. erewrite bind_ok; last reflexivity.
  unfold dst_write. cbn [fs set_fs]. rewrite lookup_insert_eq.
  cbn [count height width driver dtype crs transform bands].
  rewrite Hh, Hw, !Z.eqb_refl. cbn [Z.leb Z.compare andb].
  f_equal. unfold set_fs. cbn [fs stdout requests gcf]. f_equal.
  by rewrite insert_insert_eq.
Qed.

Lemma read_bytes_world (E : env) (path : string) (w : world) :
  (read_bytes E path w).2 = w.
Proof. unfold read_bytes. by repeat case_match. Qed.

(** The converter on one tile, by cases on the file read. *)
Lemma convert_tile_cases (E : env) (lat lon : Z) (tile_path : string) (w : world) :
  convert_tile E lat lon tile_path w =
  let w1 := using_tile tile_path w in
  match (read_bytes E tile_path w1).1 with
  | Ok data =>
      if Z.of_nat (length (be_i2 data)) =? 3601 * 3601
      then (Ok tt, set_fs (insert output_tif (GTiff (tile_raster lat lon (be_i2 data)))) w1)
      else (Raise (ValueError "cannot reshape array"), w1)
  | Raise e => (Raise e, w1)
  end.
Proof.
  cbv zeta. set (w1 := using_tile tile_path w). unfold convert_tile.
  erewrite bind_ok; last reflexivity. fold (using_tile tile_path w). fold w1.
  unfold fromfile_be_i2.
  pose proof (read_bytes_world E tile_path w1) as Hw.
  destruct (read_bytes E tile_path w1) as [[data|e] w2] eqn:Hread; cbn [fst snd] in *;
    subst w2.
  - erewrite bind_ok; last by (erewrite bind_ok; [reflexivity | exact Hread]).
    unfold reshape.
    destruct (Z.of_nat (length (be_i2 data)) =? 3601 * 3601).
    + erewrite bind_ok; last reflexivity.
      rewrite open_write_band by reflexivity. reflexivity.
    + reflexivity.
  - erewrite bind_raise; first reflexivity.
    erewrite bind_raise; [reflexivity | exact Hread].
Qed.

Lemma grid_cells_Z : Z.of_nat grid_cells = 3601 * 3601.
Proof. unfold grid_cells. apply Z2Nat.id. lia. Qed.

Lemma repeat_pair_length (n : nat) (hi lo : byte) :
  length (repeat_pair n hi lo) = (2 * n)%nat.
Proof. induction n as [|n IH]; [done|]. cbn [repeat_pair length]. rewrite IH. lia. Qed.

Lemma be_i2_repeat_pair (n : nat) (hi lo : byte) (tail : list byte) :
  (length tail < 2)%nat →
  be_i2 (repeat_pair n hi lo ++ tail)
  = replicate n (int16_of (256 * byte_val hi + byte_val lo)).
Proof.
  intros Htail. induction n as [|n IH].
  - destruct tail as [|x [|y tail]]; [done | done | cbn in Htail; lia].
  - cbn [repeat_pair app be_i2 replicate]. by rewrite IH.
Qed.

Lemma be_i2_length_Z (data : list byte) :
  Z.of_nat (length (be_i2 data)) = Z.of_nat (length data) / 2.
Proof. rewrite be_i2_length. by rewrite Nat2Z.inj_div. Qed.

(** Band 1 of the dataset the converter wrote reads back as written. *)
Lemma read_back_band (E : env) (lat lon : Z) (xs : list Z) (w : world) :
  fs w !! output_tif = Some (GTiff (tile_raster lat lon xs)) →
  (rasterio_open_r E output_tif ≫= λ src, src_read src 1) w
  = (Ok {| nrows := 3601; ncols := 3601; items := xs |}, w).
Proof.
  intros Hfs. erewrite bind_ok; last by (unfold rasterio_open_r; rewrite Hfs).
  reflexivity.
Qed.

(** A tile file that repeats one sample, with at most one stray byte at
    its end, converts when the samples fill the grid. *)
Lemma convert_tile_repeat (E : env) (lat lon : Z) (tile_path : string) (w : world)
    (n : nat) (hi lo : byte) (tail : list byte) :
  Z.of_nat n = 3601 * 3601 → (length tail < 2)%nat →
  fs w !! tile_path = Some (Raw (repeat_pair n hi lo ++ tail)) →
  convert_tile E lat lon tile_path w
  = (Ok tt,
     set_fs (insert output_tif
               (GTiff (tile_raster lat lon
                         (replicate n (int16_of (256 * byte_val hi + byte_val lo))))))
       (using_tile tile_path w)).
Proof.
  intros Hn Htail Hfs. rewrite convert_tile_cases. cbv zeta.
  unfold read_bytes. cbn [using_tile fs]. rewrite Hfs. cbn [fst].
  rewrite be_i2_repeat_pair by done.
  rewrite length_replicate, Hn, Z.eqb_refl. reflexivity.
Qed.

(** C4: a tile converted at (lat, lon) leaves at the output path a
    GTiff dataset with transform origin (lon, lat + 1) and pixel size
    1/3600 by 1/3600, CRS EPSG:4326, one int16 band, height and width
    3601, whose band 1 reads back as the samples of the tile file; a file
    holding 1000 in each of the 3601 x 3601 cells converts, and band 1
    reads back as the grid that is 1000 everywhere. *)
Theorem convert_tile_raster :
  (∀ (E : env) (lat lon : Z) (tile_path : string) (w w' : world),
     convert_tile E lat lon tile_path w = (Ok tt, w') →
     ∃ xs : list Z,
       fs w' = <[output_tif := GTiff (tile_raster lat lon xs)]> (fs w)
       ∧ Z.of_nat (length xs) = 3601 * 3601
       ∧ Forall (λ v, -32768 <= v <= 32767) xs
       ∧ (rasterio_open_r E output_tif ≫= λ src, src_read src 1) w'
         = (Ok {| nrows := 3601; ncols := 3601; items := xs |}, w'))
  ∧ (∀ (E : env) (lat lon : Z) (tile_path : string) (w : world),
       fs w !! tile_path = Some (Raw (repeat_pair grid_cells x03 xe8)) →
       ∃ w' : world,
         convert_tile E lat lon tile_path w = (Ok tt, w')
         ∧ fs w' !! output_tif
           = Some (GTiff (tile_raster lat lon (replicate grid_cells 1000)))
         ∧ (rasterio_open_r E output_tif ≫= λ src, src_read src 1) w'
           = (Ok {| nrows := 3601; ncols := 3601;
                    items := replicate grid_cells 1000 |}, w')).
Proof.
  split.
  - intros E lat lon tile_path w w' Hrun.
    rewrite convert_tile_cases in Hrun. cbv zeta in Hrun.
    destruct (read_bytes E tile_path (using_tile tile_path w)).1 as [data|e]; [|done].
    destruct (Z.of_nat (length (be_i2 data)) =? 3601 * 3601) eqn:Hlen; [|done].
    injection Hrun as <-. exists (be_i2 data).
    split; [reflexivity|]. split; [by apply Z.eqb_eq|].
    split; [apply be_i2_int16|].
    apply (read_back_band E lat lon). cbn [set_fs fs]. apply lookup_insert_eq.
  - intros E lat lon tile_path w Hfs.
    eexists. split.
    + apply (convert_tile_repeat E lat lon tile_path w grid_cells x03 xe8 []);
        [apply grid_cells_Z | cbn; lia | by rewrite app_nil_r].
    + split.
      * cbn [set_fs fs]. apply lookup_insert_eq.
      * apply (read_back_band E lat lon). cbn [set_fs fs]. apply lookup_insert_eq.
Qed.

Lemma convert_tile_raster_witness :
  ∃ w' : world,
    convert_tile env_404 28 85 "N28E085.hgt" world_constant_tile = (Ok tt, w')
    ∧ fs w' !! output_tif
      = Some (GTiff (tile_raster 28 85 (replicate grid_cells 1000))).
Proof.
  destruct (proj2 convert_tile_raster env_404 28 85 "N28E085.hgt" world_constant_tile)
    as (w' & Hrun & Hfs & _).
  - apply lookup_singleton_eq.
  - exists w'. split; [exact Hrun | exact Hfs].
Defined.

(** C5 (as amended): a tile file whose number of whole 16-bit samples
    (its byte length divided by two, rounded down) is not 3601 x 3601
    makes the read-and-reshape step raise ValueError, and no raster is
    written; a file with exactly that many whole samples converts. *)
Theorem convert_tile_size (E : env) (lat lon : Z) (tile_path : string) (w : world)
    (data : list byte) :
  fs w !! tile_path = Some (Raw data) →
  (Z.of_nat (length data) / 2 ≠ 3601 * 3601 →
     convert_tile E lat lon tile_path w
     = (Raise (ValueError "cannot reshape array"), using_tile tile_path w))
  ∧ (Z.of_nat (length data) / 2 = 3601 * 3601 →
     ∃ w' : world, convert_tile E lat lon tile_path w = (Ok tt, w')).
Proof.
  intros Hfs.
  assert (convert_tile E lat lon tile_path w
          = if Z.of_nat (length data) / 2 =? 3601 * 3601
            then (Ok tt, set_fs (insert output_tif
                                   (GTiff (tile_raster lat lon (be_i2 data))))
                           (using_tile tile_path w))
            else (Raise (ValueError "cannot reshape array"), using_tile tile_path w))
    as Hrun.
  { rewrite convert_tile_cases. cbv zeta. unfold read_bytes. cbn [using_tile fs].
    rewrite Hfs. cbn [fst]. by rewrite be_i2_length_Z. }
  split; intros Hlen.
  - apply Z.eqb_neq in Hlen. by rewrite Hrun, Hlen.
  - apply Z.eqb_eq in Hlen. rewrite Hrun, Hlen. eauto.
Qed.

Lemma convert_tile_size_witness :
  convert_tile env_404 28 85 "N28E085.hgt" world_short_tile
  = (Raise (ValueError "cannot reshape array"),
     using_tile "N28E085.hgt" world_short_tile).
Proof.
  apply (proj1 (convert_tile_size env_404 28 85 "N28E085.hgt" world_short_tile
                  tile_bytes (lookup_singleton_eq _ _))).
  vm_compute. discriminate.
Defined.

(** C5 (as stated) fails on a file one byte longer than a full grid: its
    length is not that of 3601 x 3601 samples, yet it is read and
    reshaped, the last byte being left out. *)
Lemma convert_tile_trailing_byte :
  Z.of_nat (length odd_tile) = 2 * (3601 * 3601) + 1
  ∧ ∃ w' : world,
      convert_tile env_404 28 85 "N28E085.hgt" world_odd_tile = (Ok tt, w')
      ∧ fs w' !! output_tif
        = Some (GTiff (tile_raster 28 85 (replicate grid_cells 1000))).
Proof.
  split.
  - unfold odd_tile, constant_tile.
    rewrite length_app, repeat_pair_length, Nat2Z.inj_add, Nat2Z.inj_mul, grid_cells_Z.
    reflexivity.
  - eexists. split.
    + apply (convert_tile_repeat env_404 28 85 "N28E085.hgt" world_odd_tile
               grid_cells x03 xe8 [x00]);
        [apply grid_cells_Z | cbn; lia | apply lookup_singleton_eq].
    + cbn [set_fs fs]. apply lookup_insert_eq.
Qed.

(** ** The converter loop *)

(** C3 (the code departs from it): in the converter branch the flag
    [success] is true, so the outer loop leaves after its first row
    whether or not a tile was found there; only the row of latitude 28 is
    scanned.  When the only tile on disk is N29E085.hgt, as after the run
    against [env_only_N29E085], no tile is converted, no raster is
    written, and the script ends in the render stage, which finds no
    raster to open. *)
Theorem converter_scans_one_row :
  (∀ (E : env) (lat : Z) (rest : list Z) (h : option bool) (w : world),
     convert_lats E true (lat :: rest) h w = convert_lons E lat (range 85 87) h w)
  ∧ download_loop env_only_N29E085 world_0 = (Ok true, world_4)
  ∧ fs world_4 = {["N29E085.hgt" := Raw tile_bytes]}
  ∧ fetch_or_convert env_only_N29E085 true world_4 = (Ok None, world_4)
  ∧ main env_only_N29E085 world_0
    = (Raise (RasterioIOError "langtang_srtm.tif"), world_4).
Proof.
  split; [|by vm_compute].
  intros E lat rest h w. cbn [convert_lats]. unfold mbind, M_bind.
  by destruct (convert_lons E lat (range 85 87) h w) as [[a|e] w'].
Qed.

(** ** The render stage *)

Lemma rasterio_open_r_world (E : env) (path : string) (w : world) :
  (rasterio_open_r E path w).2 = w.
Proof. unfold rasterio_open_r. by repeat case_match. Qed.

Lemma src_read_1 (src : raster) :
  src_read src 1
  = match bands src !! 0%nat with
    | Some band => mret band
    | None => raise IndexError
    end.
Proof. reflexivity. Qed.

(** C8 (the code departs from it): the render stage never writes a
    file and never completes.  When the raster opens and has a band 1,
    the figure is drawn as described (terrain colour map, colour bar
    labelled "Elevation (meters)", axes off) and the last call, plt.save,
    raises AttributeError, pyplot having no such function; nothing is
    written to langtang_heightmap.png. *)
Theorem render_raises (E : env) (w : world) :
  fs (render E w).2 = fs w
  ∧ (∃ e : exn, (render E w).1 = Raise e)
  ∧ (∀ (src : raster) (dem : ndarray),
       rasterio_open_r E output_tif w = (Ok src, w) →
       bands src !! 0%nat = Some dem →
       render E w
       = (Raise (AttributeError "module 'matplotlib.pyplot' has no attribute 'save'"),
          set_gcf {| figsize := (10%Q, 8%Q); image := Some (dem, "terrain");
                     colorbar_label := Some "Elevation (meters)";
                     title := Some "DEM – Langtang National Park";
                     axis_on := false |} w)).
Proof.
  assert (∀ (src : raster) (dem : ndarray),
            rasterio_open_r E output_tif w = (Ok src, w) →
            bands src !! 0%nat = Some dem →
            render E w
            = (Raise (AttributeError "module 'matplotlib.pyplot' has no attribute 'save'"),
               set_gcf {| figsize := (10%Q, 8%Q); image := Some (dem, "terrain");
                          colorbar_label := Some "Elevation (meters)";
                          title := Some "DEM – Langtang National Park";
                          axis_on := false |} w)) as Hsave.
  { intros src dem Hopen Hband. unfold render.
    erewrite bind_ok; last exact Hopen.
    erewrite bind_ok; last by (rewrite src_read_1, Hband).
    reflexivity. }
  assert (∃ (e : exn) (w' : world), render E w = (Raise e, w') ∧ fs w' = fs w)
    as (e & w' & Hrun & Hfs).
  { pose proof (rasterio_open_r_world E output_tif w) as Hw.
    destruct (rasterio_open_r E output_tif w) as [[src|e] w1] eqn:Hopen;
      cbn [snd] in Hw; subst w1.
    - destruct (bands src !! 0%nat) as [dem|] eqn:Hband.
      + rewrite (Hsave src dem eq_refl Hband). eauto.
      + exists IndexError, w. split; [|done].
        unfold render. erewrite bind_ok; last exact Hopen.
        erewrite bind_raise; first reflexivity.
        by rewrite src_read_1, Hband.
    - exists e, w. split; [|done]. unfold render. by erewrite bind_raise. }
  rewrite Hrun. split; [exact Hfs|]. split; [by exists e|].
  rewrite <- Hrun. exact Hsave.
Qed.

(** ** More on tile names *)

Lemma pretty_N_go_app (x : N) (s : string) :
  pretty_N_go x s = pretty_N_go x "" +:+ s.
Proof.
  revert s. induction (N.lt_wf_0 x) as [x _ IH]; intros s.
  destruct (decide (x = 0)%N) as [->|Hx]; [done|].
  assert (x `div` 10 < x)%N as Hlt by (apply N.div_lt; lia).
  rewrite !(pretty_N_go_step x) by lia.
  rewrite (IH _ Hlt (String (pretty_N_char (x `mod` 10)) s)).
  rewrite (IH _ Hlt (String (pretty_N_char (x `mod` 10)) "")).
  by rewrite string_app_assoc.
Qed.

Lemma pretty_N_char_code (d : N) :
  (d < 10)%N → N_of_ascii (pretty_N_char d) = (48 + d)%N.
Proof.
  intros Hd.
  assert (d = 0 ∨ d = 1 ∨ d = 2 ∨ d = 3 ∨ d = 4 ∨ d = 5 ∨ d = 6 ∨ d = 7
          ∨ d = 8 ∨ d = 9)%N as Hcases by lia.
  by repeat (destruct Hcases as [->|Hcases]; [done|]); subst.
Qed.

Lemma digits_value_app (acc : N) (s t : string) :
  digits_value acc (s +:+ t) = digits_value (digits_value acc s) t.
Proof.
  revert acc. induction s as [|c s IH]; intros acc; [done|].
  rewrite string_app_cons. cbn [digits_value]. by rewrite IH.
Qed.

Lemma digits_value_pretty_N_go (x : N) : digits_value 0 (pretty_N_go x "") = x.
Proof.
  induction (N.lt_wf_0 x) as [x _ IH].
  destruct (decide (x = 0)%N) as [->|Hx]; [done|].
  rewrite pretty_N_go_step, pretty_N_go_app, digits_value_app by lia.
  rewrite IH by (apply N.div_lt; lia). cbn [digits_value].
  rewrite pretty_N_char_code by (apply N.mod_lt; lia).
  rewrite (N.div_mod x 10) at 3 by lia.
  generalize (x `div` 10)%N (x `mod` 10)%N. intros q r. lia.
Qed.

Lemma digits_value_pretty (a : Z) : 0 <= a → digits_value 0 (pretty a) = Z.to_N a.
Proof.
  intros Ha. destruct a as [|p|p]; [done| |lia].
  change (pretty (Z.pos p)) with (pretty (N.pos p)).
  unfold pretty, pretty_N. rewrite decide_False by done.
  by rewrite digits_value_pretty_N_go.
Qed.

Lemma digits_value_zeros (k : nat) (s : string) :
  digits_value 0 (zeros k +:+ s) = digits_value 0 s.
Proof. induction k as [|k IH]; [done|]. cbn [zeros]. by rewrite string_app_cons. Qed.

(** Reading back a zero-padded field gives the number printed. *)
Lemma digits_value_format_0d (width : nat) (a : Z) :
  0 <= a → digits_value 0 (format_0d width a) = Z.to_N a.
Proof.
  intros Ha. unfold format_0d. rewrite (proj2 (Z.ltb_ge a 0)) by done.
  unfold zfill. by rewrite digits_value_zeros, digits_value_pretty.
Qed.

Lemma all_digits_app (s t : string) :
  all_digits (s +:+ t) = all_digits s && all_digits t.
Proof.
  induction s as [|c s IH]; [done|].
  rewrite string_app_cons. cbn [all_digits]. rewrite IH. by rewrite andb_assoc.
Qed.

Lemma is_digit_pretty_N_char (d : N) : (d < 10)%N → is_digit (pretty_N_char d) = true.
Proof.
  intros Hd. unfold is_digit. rewrite pretty_N_char_code by done.
  apply andb_true_iff. split; apply N.leb_le; lia.
Qed.

Lemma all_digits_pretty_N_go (x : N) : all_digits (pretty_N_go x "") = true.
Proof.
  induction (N.lt_wf_0 x) as [x _ IH].
  destruct (decide (x = 0)%N) as [->|Hx]; [done|].
  rewrite pretty_N_go_step, pretty_N_go_app, all_digits_app by lia.
  rewrite IH by (apply N.div_lt; lia). cbn [all_digits andb].
  rewrite is_digit_pretty_N_char by (apply N.mod_lt; lia). done.
Qed.

Lemma all_digits_zeros (k : nat) : all_digits (zeros k) = true.
Proof. induction k as [|k IH]; [done|]. cbn [zeros all_digits]. by rewrite IH. Qed.

Lemma all_digits_format_0d (width : nat) (a : Z) :
  0 <= a → all_digits (format_0d width a) = true.
Proof.
  intros Ha. unfold format_0d. rewrite (proj2 (Z.ltb_ge a 0)) by done.
  unfold zfill. rewrite all_digits_app, all_digits_zeros. cbn [andb].
  destruct a as [|p|p]; [done| |lia].
  change (pretty (Z.pos p)) with (pretty (N.pos p)).
  unfold pretty, pretty_N. rewrite decide_False by done.
  apply all_digits_pretty_N_go.
Qed.

(** Two strings of digits, each followed by a character that is not a
    digit, agree up to that character when the whole strings agree. *)
Lemma digits_then_letter (s1 s2 t1 t2 : string) (c1 c2 : ascii) :
  all_digits s1 = true → all_digits s2 = true →
  is_digit c1 = false → is_digit c2 = false →
  s1 +:+ String c1 t1 = s2 +:+ String c2 t2 →
  s1 = s2 ∧ c1 = c2 ∧ t1 = t2.
Proof.
  revert s2. induction s1 as [|a s1 IH]; intros s2 H1 H2 Hc1 Hc2 Heq.
  - destruct s2 as [|b s2].
    + by injection Heq as -> ->.
    + rewrite string_app_cons in Heq. injection Heq as -> _.
      cbn [all_digits] in H2. apply andb_true_iff in H2 as [H2 _]. congruence.
  - destruct s2 as [|b s2].
    + rewrite string_app_cons in Heq. injection Heq as -> _.
      cbn [all_digits] in H1. apply andb_true_iff in H1 as [H1 _]. congruence.
    + rewrite !string_app_cons in Heq. injection Heq as -> Heq.
      cbn [all_digits] in H1, H2.
      apply andb_true_iff in H1 as [_ H1]. apply andb_true_iff in H2 as [_ H2].
      destruct (IH s2 H1 H2 Hc1 Hc2 Heq) as (-> & -> & ->). done.
Qed.

Lemma string_app_inj_r (s t u : string) : s +:+ u = t +:+ u → s = t.
Proof.
  revert t. induction s as [|a s IH]; intros t Heq.
  - destruct t as [|b t]; [done|]. exfalso.
    apply (f_equal String.length) in Heq.
    rewrite !string_app_length in Heq. cbn in Heq. lia.
  - destruct t as [|b t].
    + exfalso. apply (f_equal String.length) in Heq.
      rewrite !string_app_length in Heq. cbn in Heq. lia.
    + rewrite !string_app_cons in Heq. injection Heq as -> Heq.
      by rewrite (IH t Heq).
Qed.

Lemma tile_name_inj (lat lon lat' lon' : Z) :
  tile_name lat lon = tile_name lat' lon' → lat = lat' ∧ lon = lon'.
Proof.
  unfold tile_name. intros Heq.
  set (F2 := format_0d 2 (Z.abs lat)) in *. set (F3 := format_0d 3 (Z.abs lon)) in *.
  set (G2 := format_0d 2 (Z.abs lat')) in *. set (G3 := format_0d 3 (Z.abs lon')) in *.
  assert (∃ c1 c2 d1 d2,
            String c1 (F2 +:+ String c2 F3) = String d1 (G2 +:+ String d2 G3)
            ∧ c1 = (if 0 <=? lat then "N"%char else "S"%char)
            ∧ c2 = (if 0 <=? lon then "E"%char else "W"%char)
            ∧ d1 = (if 0 <=? lat' then "N"%char else "S"%char)
            ∧ d2 = (if 0 <=? lon' then "E"%char else "W"%char))
    as (c1 & c2 & d1 & d2 & Heq' & Hc1 & Hc2 & Hd1 & Hd2).
  { do 4 eexists. split; [|done].
    by destruct (0 <=? lat), (0 <=? lon), (0 <=? lat'), (0 <=? lon'). }
  injection Heq' as Hns Hrest.
  apply digits_then_letter in Hrest as (H2 & Hew & H3);
    [|by apply all_digits_format_0d, Z.abs_nonneg..
     |by subst c2; destruct (0 <=? lon)|by subst d2; destruct (0 <=? lon')].
  apply (f_equal (digits_value 0)) in H2, H3. subst F2 F3 G2 G3.
  rewrite !digits_value_format_0d in H2, H3 by apply Z.abs_nonneg.
  subst c1 c2 d1 d2.
  destruct (Z.leb_spec 0 lat), (Z.leb_spec 0 lat'); try done;
    destruct (Z.leb_spec 0 lon), (Z.leb_spec 0 lon'); try done; lia.
Qed.

Lemma pretty_N_go_length_S (x : N) :
  (0 < x)%N →
  String.length (pretty_N_go x "") = S (String.length (pretty_N_go (x `div` 10)%N "")).
Proof.
  intros Hx. rewrite pretty_N_go_step, pretty_N_go_app, string_app_length by done.
  cbn. lia.
Qed.

(** A positive number prints in at most [k] digits exactly when it is
    below the [k]-th power of ten. *)
Lemma pretty_N_go_length (k : nat) :
  ∀ x : N, (String.length (pretty_N_go x "") ≤ k)%nat ↔ (x < 10 ^ N.of_nat k)%N.
Proof.
  induction k as [|k IH]; intros x.
  - destruct (decide (x = 0)%N) as [->|Hx]; [done|].
    rewrite pretty_N_go_length_S by lia. cbn. lia.
  - destruct (decide (x = 0)%N) as [->|Hx].
    + rewrite pretty_N_go_0. cbn [String.length]. split; [intros _|intros _; lia].
      apply N.neq_0_lt_0, N.pow_nonzero. done.
    + rewrite pretty_N_go_length_S by lia.
      rewrite Nat2N.inj_succ, N.pow_succ_r'.
      rewrite <- Nat.succ_le_mono, IH.
      pose proof (N.div_mod x 10 ltac:(done)) as Hdm.
      pose proof (N.mod_lt x 10 ltac:(done)) as Hm.
      revert Hdm Hm.
      generalize (x `div` 10)%N (x `mod` 10)%N (10 ^ N.of_nat k)%N.
      intros q r m Hdm Hm. lia.
Qed.

Lemma zeros_length (k : nat) : String.length (zeros k) = k.
Proof. induction k as [|k IH]; [done|]. cbn. by rewrite IH. Qed.

Lemma zfill_length (width : nat) (s : string) :
  String.length (zfill width s) = (width `max` String.length s)%nat.
Proof. unfold zfill. rewrite string_app_length, zeros_length. lia. Qed.

(** The width of a zero-padded field is met exactly by the numbers
    below ten to that width, and exceeded by the others. *)
Lemma format_0d_length (width : nat) (a : Z) :
  (0 < width)%nat → 0 <= a →
  (width ≤ String.length (format_0d width a))%nat
  ∧ (String.length (format_0d width a) = width ↔ a < 10 ^ Z.of_nat width).
Proof.
  intros Hw Ha. unfold format_0d. rewrite (proj2 (Z.ltb_ge a 0)) by done.
  rewrite zfill_length. split; [lia|].
  destruct a as [|p|p]; [|clear Ha|lia].
  - cbn. split; [intros _; by apply Z.pow_pos_nonneg; lia | lia].
  - change (pretty (Z.pos p)) with (pretty (N.pos p)).
    unfold pretty, pretty_N. rewrite decide_False by done.
    pose proof (pretty_N_go_length width (N.pos p)) as Hlen.
    assert ((N.pos p < 10 ^ N.of_nat width)%N ↔ Z.pos p < 10 ^ Z.of_nat width) as Hpow.
    { rewrite <- (N2Z.id (N.pos p)) at 1.
      change (Z.pos p) with (Z.of_N (N.pos p)).
      rewrite N2Z.inj_lt, N2Z.inj_pow. rewrite N2Z.id.
      by rewrite nat_N_Z. }
    rewrite <- Hpow, <- Hlen. lia.
Qed.

Lemma tile_name_length_eq (lat lon : Z) :
  String.length (tile_name lat lon)
  = (2 + String.length (format_0d 2 (Z.abs lat))
     + String.length (format_0d 3 (Z.abs lon)))%nat.
Proof.
  unfold tile_name. rewrite !string_app_length.
  destruct (0 <=? lat), (0 <=? lon); cbn; lia.
Qed.

(** X1: tile_name tells any two coordinate pairs apart, over all
    integers: different pairs get different identifiers, hence different
    download URLs and different tile file names. *)
Theorem tile_names_distinct (lat lon lat' lon' : Z) :
  (lat, lon) ≠ (lat', lon') →
  tile_name lat lon ≠ tile_name lat' lon'
  ∧ srtm_url lat lon ≠ srtm_url lat' lon'
  ∧ tile_name lat lon +:+ ".hgt" ≠ tile_name lat' lon' +:+ ".hgt".
Proof.
  intros Hne.
  assert (tile_name lat lon ≠ tile_name lat' lon') as Hname.
  { intros Heq. apply tile_name_inj in Heq as [-> ->]. by apply Hne. }
  split; [exact Hname|]. split.
  - unfold srtm_url. intros Heq. apply (inj (String.app _)) in Heq.
    by apply string_app_inj_r in Heq.
  - intros Heq. by apply string_app_inj_r in Heq.
Qed.

Lemma tile_names_distinct_witness :
  tile_name 28 85 ≠ tile_name 28 86
  ∧ srtm_url 28 85 ≠ srtm_url 28 86
  ∧ tile_name 28 85 +:+ ".hgt" ≠ tile_name 28 86 +:+ ".hgt".
Proof. apply (tile_names_distinct 28 85 28 86). intros [= H]. Defined.

(** X2: a tile identifier has at least seven characters, and exactly
    seven precisely when the latitude is within -99..99 and the longitude
    within -999..999. *)
Theorem tile_name_length (lat lon : Z) :
  (7 ≤ String.length (tile_name lat lon))%nat
  ∧ (String.length (tile_name lat lon) = 7%nat
     ↔ Z.abs lat <= 99 ∧ Z.abs lon <= 999).
Proof.
  rewrite tile_name_length_eq.
  destruct (format_0d_length 2 (Z.abs lat)) as [H2 E2]; [lia | apply Z.abs_nonneg |].
  destruct (format_0d_length 3 (Z.abs lon)) as [H3 E3]; [lia | apply Z.abs_nonneg |].
  change (10 ^ Z.of_nat 2) with 100 in E2. change (10 ^ Z.of_nat 3) with 1000 in E3.
  split; [lia|]. split.
  - intros Hlen.
    assert (String.length (format_0d 2 (Z.abs lat)) = 2%nat) as L2 by lia.
    assert (String.length (format_0d 3 (Z.abs lon)) = 3%nat) as L3 by lia.
    apply E2 in L2. apply E3 in L3. lia.
  - intros [Hlat Hlon].
    assert (String.length (format_0d 2 (Z.abs lat)) = 2%nat) as L2 by (apply E2; lia).
    assert (String.length (format_0d 3 (Z.abs lon)) = 3%nat) as L3 by (apply E3; lia).
    lia.
Qed.

(** ** More on the direct fetcher *)

Lemma extract_fs_lookup_other (dir : string) (members : list (string * list byte)) :
  ∀ (m : gmap string content) (p : string),
    (∀ name data, (name, data) ∈ members → path_join dir name ≠ p) →
    extract_fs dir members m !! p = m !! p.
Proof.
  induction members as [|[name data] rest IH]; intros m p Hp; [done|].
  change (extract_fs dir ((name, data) :: rest) m)
    with (extract_fs dir rest (<[path_join dir name := Raw data]> m)).
  rewrite IH.
  - apply lookup_insert_ne. apply (Hp name data), list_elem_of_here.
  - intros name' data' Hin. apply (Hp name' data'). by apply list_elem_of_further.
Qed.

(** A direct attempt ends in one of three ways, told apart by the
    answer of the server. *)
Lemma download_srtm_aws_outcome (E : env) (c : Z * Z) (out_path : string) (w : world) :
  let r := tile_response E c in
  (served E c = false
   ∧ download_srtm_aws E c.1 c.2 out_path w = (Ok false, failed_attempt c w))
  ∨ (∃ members w',
       served E c = true ∧ zip_members E (body r) = Some members
       ∧ download_srtm_aws E c.1 c.2 out_path w = (Ok true, w')
       ∧ fs w' = delete (out_path +:+ ".zip")
                   (extract_fs (dirname out_path) members
                      (<[out_path +:+ ".zip" := Raw (body r)]> (fs w)))
       ∧ requests w' = requests w ++ [srtm_url c.1 c.2])
  ∨ (∃ w',
       bad_archive E c
       ∧ download_srtm_aws E c.1 c.2 out_path w = (Raise BadZipFile, w')
       ∧ fs w' = <[out_path +:+ ".zip" := Raw (body r)]> (fs w)
       ∧ requests w' = requests w ++ [srtm_url c.1 c.2]).
Proof.
  intros r. rewrite download_srtm_aws_cases. unfold bad_archive, served.
  fold (tile_response E c). fold r.
  destruct (status_code r =? 200) eqn:Hst; cbn [negb].
  - destruct (zip_members E (body r)) as [members|] eqn:Hzip.
    + right. left. exists members. eexists. by repeat split.
    + right. right. eexists. by repeat split.
  - left. split; [done|]. unfold failed_attempt. cbn. by rewrite <- app_assoc.
Qed.



(** ** More on the download loop *)

(** The download loop, attempt by attempt. *)
Lemma download_loop_cases (E : env) (w : world) :
  match download_srtm_aws E 28 85 "N28E085.hgt" w with
  | (Raise e, w1) => download_loop E w = (Raise e, w1)
  | (Ok b1, w1) =>
      match download_srtm_aws E 28 86 "N28E086.hgt" w1 with
      | (Raise e, w2) => download_loop E w = (Raise e, w2)
      | (Ok b2, w2) =>
          match download_srtm_aws E 29 85 "N29E085.hgt" w2 with
          | (Raise e, w3) => download_loop E w = (Raise e, w3)
          | (Ok b3, w3) =>
              match download_srtm_aws E 29 86 "N29E086.hgt" w3 with
              | (Raise e, w4) => download_loop E w = (Raise e, w4)
              | (Ok b4, w4) => download_loop E w = (Ok (b1 || b2 || b3 || b4), w4)
              end
          end
      end
  end.
Proof.
  unfold download_loop. change (range 28 30) with [28; 29].
  cbn [download_lats]. change (range 85 87) with [85; 86]. cbn [download_lons].
  change (tile_name 28 85 +:+ ".hgt") with "N28E085.hgt".
  change (tile_name 28 86 +:+ ".hgt") with "N28E086.hgt".
  change (tile_name 29 85 +:+ ".hgt") with "N29E085.hgt".
  change (tile_name 29 86 +:+ ".hgt") with "N29E086.hgt".
  unfold mbind, M_bind, mret, M_ret.
  destruct (download_srtm_aws E 28 85 "N28E085.hgt" w) as [[b1|e] w1]; [|done].
  destruct (download_srtm_aws E 28 86 "N28E086.hgt" w1) as [[b2|e] w2]; [|done].
  destruct (download_srtm_aws E 29 85 "N29E085.hgt" w2) as [[b3|e] w3]; [|done].
  destruct (download_srtm_aws E 29 86 "N29E086.hgt" w3) as [[b4|e] w4]; [|done].
  by destruct b1, b2, b3, b4.
Qed.

(** What any one attempt does, in the form the loop needs. *)
Lemma attempt_any (E : env) (c : Z * Z) (out_path : string) (w : world) :
  ∃ r w',
    download_srtm_aws E c.1 c.2 out_path w = (r, w')
    ∧ requests w' = requests w ++ [srtm_url c.1 c.2]
    ∧ ((r = Raise BadZipFile ∧ bad_archive E c)
       ∨ (r = Ok (served E c) ∧ ¬ bad_archive E c
          ∧ (served E c = false → w' = failed_attempt c w))).
Proof.
  destruct (download_srtm_aws_outcome E c out_path w)
    as [[Hs Hrun] | [(members & w' & Hs & Hzip & Hrun & _ & Hreq)
                    | (w' & Hbad & Hrun & _ & Hreq)]].
  - do 2 eexists. split; [exact Hrun|]. split; [done|]. right.
    rewrite Hs. split; [done|]. split; [|done]. intros [Hs' _]. congruence.
  - do 2 eexists. split; [exact Hrun|]. split; [done|]. right.
    rewrite Hs. split; [done|]. split; [|done]. intros [_ Hz]. congruence.
  - do 2 eexists. split; [exact Hrun|]. split; [done|]. by left.
Qed.

Lemma grid_eq : grid = [(28, 85); (28, 86); (29, 85); (29, 86)].
Proof. reflexivity. Qed.





(** ** The script as a whole *)

(** The render stage always ends in an exception, and writes no file
    and issues no request on the way. *)
Lemma render_outcome (E : env) (w : world) :
  ∃ (e : exn) (w' : world),
    render E w = (Raise e, w') ∧ fs w' = fs w ∧ requests w' = requests w
    ∧ (e = AttributeError "module 'matplotlib.pyplot' has no attribute 'save'"
       ↔ ∃ src, rasterio_open_r E output_tif w = (Ok src, w)
                ∧ is_Some (bands src !! 0%nat)).
Proof.
  pose proof (rasterio_open_r_world E output_tif w) as Hw.
  destruct (rasterio_open_r E output_tif w) as [[src|e] w1] eqn:Hopen;
    cbn [snd] in Hw; subst w1.
  - destruct (bands src !! 0%nat) as [dem|] eqn:Hband.
    + eexists _, _. split.
      { unfold render. erewrite bind_ok; last exact Hopen.
        erewrite bind_ok; last by (rewrite src_read_1, Hband).
        reflexivity. }
      split; [done|]. split; [done|]. split; [|done].
      intros _. exists src. split; [done|]. rewrite Hband. eauto.
    + exists IndexError, w. split.
      { unfold render. erewrite bind_ok; last exact Hopen.
        erewrite bind_raise; first reflexivity.
        by rewrite src_read_1, Hband. }
      split; [done|]. split; [done|]. split; [done|].
      intros (src' & [= <-] & Hsome). rewrite Hband in Hsome. by destruct Hsome.
  - exists e, w. split; [unfold render; by erewrite bind_raise|].
    split; [done|]. split; [done|]. split.
    + intros ->. exfalso. unfold rasterio_open_r in Hopen.
      repeat case_match; congruence.
    + by intros (src' & [=] & _).
Qed.

(** The fallback fetcher, by cases on the status of the answer. *)
Lemma download_opentopo_cases (E : env) (bnds : pyfloat * pyfloat * pyfloat * pyfloat)
    (out_path key : string) (w : world) :
  let url := opentopo_url bnds key in
  let r := http_get E url in
  download_opentopo E bnds out_path key w =
  if status_code r =? 200 then
    (Ok true,
     {| fs := <[out_path := Raw (body r)]> (fs w);
        stdout := stdout w ++ ["Trying OpenTopography fallback...";
                               "OpenTopography download successful."];
        requests := requests w ++ [url]; gcf := gcf w |})
  else
    (Raise (RuntimeError "OpenTopography request failed."),
     {| fs := fs w; stdout := stdout w ++ ["Trying OpenTopography fallback..."];
        requests := requests w ++ [url]; gcf := gcf w |}).
Proof.
  intros url r. unfold download_opentopo.
  erewrite bind_ok; last reflexivity.
  erewrite bind_ok; last reflexivity.
  fold url r. destruct (status_code r =? 200); cbn [negb]; [|reflexivity].
  rewrite stream_bind. erewrite bind_ok; last reflexivity.
  unfold mret, M_ret, set_fs. cbn. by rewrite <- app_assoc.
Qed.

(** The download loop when no tile is served. *)
Lemma download_loop_all_fail (E : env) (w : world) :
  Forall (λ c, served E c = false) grid →
  download_loop E w = (Ok false, foldl (λ w' c, failed_attempt c w') w grid).
Proof.
  rewrite grid_eq. intros Hnone.
  apply Forall_cons in Hnone as [S1 Hnone]. apply Forall_cons in Hnone as [S2 Hnone].
  apply Forall_cons in Hnone as [S3 Hnone]. apply Forall_cons in Hnone as [S4 _].
  pose proof (download_loop_cases E w) as Hloop.
  destruct (attempt_any E (28, 85) "N28E085.hgt" w)
    as (r1 & w1 & H1 & _ & [[_ [B1 _]] | (-> & _ & W1)]); [congruence|].
  cbn [fst snd] in H1. rewrite H1, (W1 S1) in Hloop.
  destruct (attempt_any E (28, 86) "N28E086.hgt" (failed_attempt (28, 85) w))
    as (r2 & w2 & H2 & _ & [[_ [B2 _]] | (-> & _ & W2)]); [congruence|].
  cbn [fst snd] in H2. rewrite H2, (W2 S2) in Hloop.
  destruct (attempt_any E (29, 85) "N29E085.hgt"
              (failed_attempt (28, 86) (failed_attempt (28, 85) w)))
    as (r3 & w3 & H3 & _ & [[_ [B3 _]] | (-> & _ & W3)]); [congruence|].
  cbn [fst snd] in H3. rewrite H3, (W3 S3) in Hloop.
  destruct (attempt_any E (29, 86) "N29E086.hgt"
              (failed_attempt (29, 85)
                 (failed_attempt (28, 86) (failed_attempt (28, 85) w))))
    as (r4 & w4 & H4 & _ & [[_ [B4 _]] | (-> & _ & W4)]); [congruence|].
  cbn [fst snd] in H4. rewrite H4, (W4 S4) in Hloop.
  rewrite Hloop, S1, S2, S3, S4. reflexivity.
Qed.

Lemma failed_attempts_world (w : world) :
  fs (foldl (λ w' c, failed_attempt c w') w grid) = fs w
  ∧ requests (foldl (λ w' c, failed_attempt c w') w grid)
    = requests w ++ map (λ c, srtm_url c.1 c.2) grid.
Proof.
  rewrite grid_eq. split; [done|]. cbn. by rewrite <- !app_assoc.
Qed.

(** X7: when none of the four tiles is answered with status 200 and the
    fallback request is, the script leaves the body of the fallback
    answer, byte for byte, at langtang_srtm.tif and changes no other file;
    it has requested the four tile URLs and then the fallback URL; and it
    ends in an exception, which is the AttributeError of plt.save exactly
    when that body decodes to a raster with a first band. *)
Theorem main_fallback (E : env) (w : world) :
  Forall (λ c, served E c = false) grid →
  status_code (http_get E fallback_url) = 200 →
  ∃ (e : exn) (w' : world),
    main E w = (Raise e, w')
    ∧ fs w' = <[output_tif := Raw (body (http_get E fallback_url))]> (fs w)
    ∧ requests w'
      = requests w ++ map (λ c, srtm_url c.1 c.2) grid ++ [fallback_url]
    ∧ (e = AttributeError "module 'matplotlib.pyplot' has no attribute 'save'"
       ↔ ∃ src, gtiff_decode E (body (http_get E fallback_url)) = Some src
                ∧ is_Some (bands src !! 0%nat)).
Proof.
  intros Hnone Hst.
  destruct (failed_attempts_world w) as [Hfs Hreq].
  set (w4 := foldl (λ w' c, failed_attempt c w') w grid) in *.
  pose proof (download_opentopo_cases E bounds output_tif api_key w4) as Hot.
  cbv zeta in Hot. fold fallback_url in Hot.
  apply Z.eqb_eq in Hst. rewrite Hst in Hot.
  match type of Hot with _ = (_, ?x) => set (w5 := x) in * end.
  destruct (render_outcome E w5) as (e & w' & Hrender & Hfs' & Hreq' & Hsave).
  exists e, w'. split.
  { unfold main. erewrite bind_ok; last by apply download_loop_all_fail.
    unfold fetch_or_convert. cbn [negb].
    erewrite bind_ok; last by (erewrite bind_ok; [reflexivity | exact Hot]).
    exact Hrender. }
  split; [by rewrite Hfs'; cbn; rewrite Hfs|].
  split; [by rewrite Hreq'; cbn; rewrite Hreq, <- app_assoc|].
  rewrite Hsave. unfold rasterio_open_r.
  assert (fs w5 !! output_tif = Some (Raw (body (http_get E fallback_url)))) as ->
    by apply lookup_insert_eq.
  destruct (gtiff_decode E (body (http_get E fallback_url))) as [src|].
  - split; intros (src' & [= <-] & Hb); eauto.
  - split; by intros (src' & [=] & Hb).
Qed.

(** X8: when neither a tile nor the fallback request is answered with
    status 200, the script ends in the RuntimeError of download_opentopo;
    it has changed no file, and has requested the four tile URLs and then
    the fallback URL. *)
Theorem main_all_fail (E : env) (w : world) :
  Forall (λ c, served E c = false) grid →
  status_code (http_get E fallback_url) ≠ 200 →
  ∃ w' : world,
    main E w = (Raise (RuntimeError "OpenTopography request failed."), w')
    ∧ fs w' = fs w
    ∧ requests w'
      = requests w ++ map (λ c, srtm_url c.1 c.2) grid ++ [fallback_url].
Proof.
  intros Hnone Hst.
  destruct (failed_attempts_world w) as [Hfs Hreq].
  set (w4 := foldl (λ w' c, failed_attempt c w') w grid) in *.
  pose proof (download_opentopo_cases E bounds output_tif api_key w4) as Hot.
  cbv zeta in Hot. fold fallback_url in Hot.
  apply Z.eqb_neq in Hst. rewrite Hst in Hot.
  eexists. split.
  { unfold main. erewrite bind_ok; last by apply download_loop_all_fail.
    unfold fetch_or_convert. cbn [negb].
    erewrite bind_raise; first reflexivity.
    erewrite bind_raise; [reflexivity | exact Hot]. }
  cbn [fs requests]. split; [done|]. by rewrite Hreq, <- app_assoc.
Qed.

Lemma main_all_fail_witness :
  ∃ w' : world,
    main env_404 world_0 = (Raise (RuntimeError "OpenTopography request failed."), w')
    ∧ fs w' = fs world_0
    ∧ requests w'
      = requests world_0 ++ map (λ c, srtm_url c.1 c.2) grid ++ [fallback_url].
Proof.
  apply (main_all_fail env_404 world_0).
  - rewrite grid_eq. repeat constructor.
  - vm_compute. discriminate.
Defined.

(** X9: no run of the script ends normally: whatever the server
    answers and whatever the working directory holds, the script ends in
    an exception. *)
Theorem main_never_completes (E : env) (w : world) :
  ∃ (e : exn) (w' : world), main E w = (Raise e, w').
Proof.
  unfold main, mbind, M_bind.
  destruct (download_loop E w) as [[success|e] w1]; [|eauto].
  destruct (fetch_or_convert E success w1) as [[h|e] w2]; [|eauto].
  destruct (render_outcome E w2) as (e & w' & Hrender & _). eauto.
Qed.

Lemma main_fallback_witness :
  ∃ (e : exn) (w' : world),
    main env_fallback_only world_0 = (Raise e, w')
    ∧ fs w' = <[output_tif := Raw tile_bytes]> (fs world_0)
    ∧ requests w'
      = requests world_0 ++ map (λ c, srtm_url c.1 c.2) grid ++ [fallback_url].
Proof.
  destruct (main_fallback env_fallback_only world_0)
    as (e & w' & Hrun & Hfs & Hreq & _).
  - rewrite grid_eq. repeat constructor.
  - reflexivity.
  - exists e, w'. split; [exact Hrun|]. split; [exact Hfs | exact Hreq].
Defined.

(** ** More on the converter loop *)

Lemma convert_lons_found (E : env) (lat lon : Z) (rest : list Z) (h : option bool)
    (w : world) :
  is_Some (fs w !! (tile_name lat lon +:+ ".hgt")) →
  convert_lons E lat (lon :: rest) h w
  = (convert_tile E lat lon (tile_name lat lon +:+ ".hgt") ≫= λ _, mret (Some true)) w.
Proof.
  intros Hex. cbn [convert_lons].
  erewrite bind_ok; last reflexivity. by rewrite bool_decide_true.
Qed.

Lemma convert_lons_missing (E : env) (lat lon : Z) (rest : list Z) (h : option bool)
    (w : world) :
  fs w !! (tile_name lat lon +:+ ".hgt") = None →
  convert_lons E lat (lon :: rest) h w = convert_lons E lat rest h w.
Proof.
  intros Hno. cbn [convert_lons].
  erewrite bind_ok; last reflexivity.
  rewrite bool_decide_false; [done|]. rewrite Hno. by intros [? ?].
Qed.

Lemma convert_lats_true (E : env) (lat : Z) (rest : list Z) (h : option bool)
    (w : world) :
  convert_lats E true (lat :: rest) h w = convert_lons E lat (range 85 87) h w.
Proof.
  cbn [convert_lats]. unfold mbind, M_bind.
  by destruct (convert_lons E lat (range 85 87) h w) as [[a|e] w'].
Qed.

(** X10: in the converter branch (the flag being true) the tile that
    is converted is N28E085.hgt when that file exists, otherwise
    N28E086.hgt when that file exists, and otherwise none: then nothing
    is printed or written and hgt_mode stays unbound.  The files of
    latitude 29 are never looked at. *)
Theorem converter_choice (E : env) (w : world) :
  fetch_or_convert E true w =
  if bool_decide (is_Some (fs w !! "N28E085.hgt")) then
    (convert_tile E 28 85 "N28E085.hgt" ≫= λ _, mret (Some true)) w
  else if bool_decide (is_Some (fs w !! "N28E086.hgt")) then
    (convert_tile E 28 86 "N28E086.hgt" ≫= λ _, mret (Some true)) w
  else (Ok None, w).
Proof.
  unfold fetch_or_convert. cbn [negb].
  change (range 28 30) with [28; 29]. rewrite convert_lats_true.
  change (range 85 87) with [85; 86].
  case_bool_decide as H85.
  - by rewrite convert_lons_found.
  - rewrite convert_lons_missing
      by (destruct (fs w !! "N28E085.hgt") eqn:Hf; [exfalso; apply H85; eauto | done]).
    case_bool_decide as H86.
    + by rewrite convert_lons_found.
    + rewrite convert_lons_missing
        by (destruct (fs w !! "N28E086.hgt") eqn:Hf; [exfalso; apply H86; eauto | done]).
      reflexivity.
Qed.

(** X11: when the tile N28E085 is answered with status 200 and an
    archive whose one member N28E085.hgt holds a full grid of samples,
    and no other tile is served, the script extracts the tile, converts
    it, and leaves at langtang_srtm.tif the raster of the tile at (28, 85)
    with the samples of the file; it requests the four tile URLs and never
    the fallback; it then ends in the AttributeError of plt.save. *)
Theorem main_direct_tile (E : env) (w : world) (data : list byte) :
  served E (28, 85) = true →
  zip_members E (body (tile_response E (28, 85))) = Some [("N28E085.hgt", data)] →
  Forall (λ c, served E c = false) [(28, 86); (29, 85); (29, 86)] →
  Z.of_nat (length data) / 2 = 3601 * 3601 →
  ∃ w' : world,
    main E w
    = (Raise (AttributeError "module 'matplotlib.pyplot' has no attribute 'save'"), w')
    ∧ fs w' = <[output_tif := GTiff (tile_raster 28 85 (be_i2 data))]>
                (<["N28E085.hgt" := Raw data]> (delete "N28E085.hgt.zip" (fs w)))
    ∧ requests w' = requests w ++ map (λ c, srtm_url c.1 c.2) grid.
Proof.
  intros Hs Hz Hrest Hlen.
  apply Forall_cons in Hrest as [S2 Hrest]. apply Forall_cons in Hrest as [S3 Hrest].
  apply Forall_cons in Hrest as [S4 _].
  pose proof (download_loop_cases E w) as Hloop.
  destruct (download_srtm_aws_outcome E (28, 85) "N28E085.hgt" w)
    as [[Hs' _] | [(members & w1 & _ & Hz' & H1 & Hfs1 & R1) | (w1 & [_ Hz'] & _)]];
    [congruence | | congruence].
  rewrite Hz in Hz'. injection Hz' as <-.
  cbn [fst snd] in H1, R1. rewrite H1 in Hloop.
  destruct (attempt_any E (28, 86) "N28E086.hgt" w1)
    as (r2 & w2 & H2 & _ & [[_ [B2 _]] | (-> & _ & W2)]); [congruence|].
  cbn [fst snd] in H2. rewrite H2, (W2 S2) in Hloop.
  destruct (attempt_any E (29, 85) "N29E085.hgt" (failed_attempt (28, 86) w1))
    as (r3 & w3 & H3 & _ & [[_ [B3 _]] | (-> & _ & W3)]); [congruence|].
  cbn [fst snd] in H3. rewrite H3, (W3 S3) in Hloop.
  destruct (attempt_any E (29, 86) "N29E086.hgt"
              (failed_attempt (29, 85) (failed_attempt (28, 86) w1)))
    as (r4 & w4 & H4 & _ & [[_ [B4 _]] | (-> & _ & W4)]); [congruence|].
  cbn [fst snd] in H4. rewrite H4, (W4 S4) in Hloop.
  rewrite S2, S3, S4 in Hloop. cbn [orb] in Hloop.
  set (w4' := failed_attempt (29, 86)
                (failed_attempt (29, 85) (failed_attempt (28, 86) w1))) in *.
  set (F := <["N28E085.hgt" := Raw data]> (delete "N28E085.hgt.zip" (fs w))).
  assert (fs w1 = F) as HF.
  { rewrite Hfs1. change (dirname "N28E085.hgt") with "".
    change (extract_fs "" [("N28E085.hgt", data)] ?m)
      with (<["N28E085.hgt" := Raw data]> m).
    change ("N28E085.hgt" +:+ ".zip") with "N28E085.hgt.zip".
    rewrite delete_insert_ne by done. by rewrite delete_insert_eq. }
  assert (fs (using_tile "N28E085.hgt" w4') = F) as HF4 by exact HF.
  set (w5 := set_fs (insert output_tif (GTiff (tile_raster 28 85 (be_i2 data))))
               (using_tile "N28E085.hgt" w4')).
  assert (fetch_or_convert E true w4' = (Ok (Some true), w5)) as Hconv.
  { unfold fetch_or_convert. cbn [negb].
    change (range 28 30) with [28; 29]. rewrite convert_lats_true.
    change (range 85 87) with [85; 86].
    rewrite convert_lons_found; last first.
    { change (fs w4') with (fs w1). rewrite HF. unfold F.
      rewrite lookup_insert_eq. eauto. }
    erewrite bind_ok; first reflexivity.
    rewrite convert_tile_cases. cbv zeta. unfold read_bytes.
    change (tile_name 28 85 +:+ ".hgt") with "N28E085.hgt".
    rewrite HF4. unfold F at 1. rewrite lookup_insert_eq. cbn [fst].
    rewrite be_i2_length_Z, Hlen, Z.eqb_refl. reflexivity. }
  destruct (render_outcome E w5) as (e & w' & Hrender & Hfs' & Hreq' & Hsave).
  assert (e = AttributeError "module 'matplotlib.pyplot' has no attribute 'save'") as ->.
  { apply Hsave. exists (tile_raster 28 85 (be_i2 data)). split.
    - unfold rasterio_open_r.
      assert (fs w5 !! output_tif = Some (GTiff (tile_raster 28 85 (be_i2 data)))) as ->
        by apply lookup_insert_eq.
      reflexivity.
    - cbn. eauto. }
  exists w'. split.
  { unfold main. erewrite bind_ok; last exact Hloop.
    erewrite bind_ok; last exact Hconv. exact Hrender. }
  split.
  - rewrite Hfs'. unfold w5. cbn [set_fs fs]. by rewrite HF4.
  - rewrite Hreq'. change (requests w5) with (requests w4').
    unfold w4'. cbn [failed_attempt requests fst snd]. rewrite R1, grid_eq.
    cbn [map fst snd]. by rewrite <- !app_assoc.
Qed.

Lemma main_direct_tile_witness :
  ∃ w' : world,
    main env_constant_N28E085 world_0
    = (Raise (AttributeError "module 'matplotlib.pyplot' has no attribute 'save'"), w')
    ∧ fs w' = <[output_tif := GTiff (tile_raster 28 85 (be_i2 constant_tile))]>
                (<["N28E085.hgt" := Raw constant_tile]>
                   (delete "N28E085.hgt.zip" (fs world_0))).
Proof.
  destruct (main_direct_tile env_constant_N28E085 world_0 constant_tile)
    as (w' & Hrun & Hfs & _).
  - reflexivity.
  - reflexivity.
  - repeat constructor.
  - unfold constant_tile.
    rewrite repeat_pair_length, Nat2Z.inj_mul, grid_cells_Z. reflexivity.
  - exists w'. split; [exact Hrun | exact Hfs].
Defined.

(** ** Contents of the extracted files *)

Lemma extract_fs_lookup_data (dir : string) (members : list (string * list byte)) :
  ∀ (m : gmap string content) (name : string) (data : list byte),
    NoDup (map (λ member, path_join dir member.1) members) →
    (name, data) ∈ members →
    extract_fs dir members m !! path_join dir name = Some (Raw data).
Proof.
  induction members as [|[name' data'] rest IH]; intros m name data Hnd Hin.
  - by apply elem_of_nil in Hin.
  - cbn [map fst] in Hnd. apply NoDup_cons in Hnd as [Hfresh Hnd].
    change (extract_fs dir ((name', data') :: rest) m)
      with (extract_fs dir rest (<[path_join dir name' := Raw data']> m)).
    apply elem_of_cons in Hin as [[= -> ->] | Hin].
    + rewrite extract_fs_lookup_other; [apply lookup_insert_eq|].
      intros n d Hnd' Heq. apply Hfresh. rewrite <- Heq.
      apply list_elem_of_fmap. by exists (n, d).
    + by apply IH.
Qed.

(** X12: after a true return of download_srtm_aws, when the members of
    the archive have pairwise different targets, each member's target
    (other than the temporary path) holds exactly that member's bytes,
    whatever was at that path before. *)
Theorem download_srtm_aws_extracted_data (E : env) (lat lon : Z) (out_path : string)
    (w w' : world) (members : list (string * list byte)) (name : string)
    (data : list byte) :
  download_srtm_aws E lat lon out_path w = (Ok true, w') →
  zip_members E (body (http_get E (srtm_url lat lon))) = Some members →
  NoDup (map (λ member, path_join (dirname out_path) member.1) members) →
  (name, data) ∈ members →
  path_join (dirname out_path) name ≠ out_path +:+ ".zip" →
  fs w' !! path_join (dirname out_path) name = Some (Raw data).
Proof.
  intros Hrun Hzip Hnd Hin Hne.
  rewrite download_srtm_aws_cases in Hrun.
  destruct (negb _); [done|]. rewrite Hzip in Hrun. injection Hrun as <-.
  cbn [fs]. rewrite lookup_delete_ne by done.
  by apply extract_fs_lookup_data.
Qed.

Lemma download_srtm_aws_extracted_data_witness :
  fs world_3 !! path_join (dirname "N29E085.hgt") "N29E085.hgt" = Some (Raw tile_bytes).
Proof.
  apply (download_srtm_aws_extracted_data env_only_N29E085 29 85 "N29E085.hgt"
           world_2 world_3 [("N29E085.hgt", tile_bytes)]).
  - by vm_compute.
  - reflexivity.
  - vm_compute. repeat constructor. by intros ?%elem_of_nil.
  - apply list_elem_of_here.
  - by vm_compute.
Defined.

(** ** Samples of the converted tile *)

Lemma be_i2_lookup (data : list byte) :
  ∀ (i : nat) (hi lo : byte),
    data !! (2 * i)%nat = Some hi → data !! (2 * i + 1)%nat = Some lo →
    be_i2 data !! i = Some (int16_of (256 * byte_val hi + byte_val lo)).
Proof.
  assert (∀ n (l : list byte), (length l < n)%nat →
            ∀ i hi lo, l !! (2 * i)%nat = Some hi → l !! (2 * i + 1)%nat = Some lo →
            be_i2 l !! i = Some (int16_of (256 * byte_val hi + byte_val lo))) as Hind.
  { induction n as [|n IH]; intros l Hl i hi lo Hhi Hlo; [lia|].
    destruct l as [|b0 [|b1 rest]]; [done | by destruct i |].
    destruct i as [|i].
    - cbn in Hhi, Hlo. by injection Hhi as ->; injection Hlo as ->.
    - cbn [be_i2]. rewrite lookup_cons.
      replace (2 * S i)%nat with (S (S (2 * i))) in Hhi by lia.
      replace (2 * S i + 1)%nat with (S (S (2 * i + 1))) in Hlo by lia.
      cbn in Hhi, Hlo. apply IH; [cbn in Hl; lia | done | done]. }
  intros i hi lo. apply (Hind (S (length data))). lia.
Qed.

(** X13: a converted tile keeps the samples of the file in file order:
    sample number i of band 1 is the signed 16-bit value of bytes 2i
    (high) and 2i + 1 (low) of the tile file. *)
Theorem convert_tile_samples (E : env) (lat lon : Z) (tile_path : string)
    (w w' : world) (data : list byte) (i : nat) (hi lo : byte) :
  fs w !! tile_path = Some (Raw data) →
  convert_tile E lat lon tile_path w = (Ok tt, w') →
  data !! (2 * i)%nat = Some hi → data !! (2 * i + 1)%nat = Some lo →
  ∃ xs : list Z,
    fs w' !! output_tif = Some (GTiff (tile_raster lat lon xs))
    ∧ xs !! i = Some (int16_of (256 * byte_val hi + byte_val lo)).
Proof.
  intros Hfs Hrun Hhi Hlo.
  rewrite convert_tile_cases in Hrun. cbv zeta in Hrun.
  unfold read_bytes in Hrun. cbn [using_tile fs] in Hrun. rewrite Hfs in Hrun.
  cbn [fst] in Hrun.
  destruct (Z.of_nat (length (be_i2 data)) =? 3601 * 3601); [|done].
  injection Hrun as <-. exists (be_i2 data). split.
  - cbn [set_fs fs]. apply lookup_insert_eq.
  - by apply be_i2_lookup.
Qed.

Lemma repeat_pair_head (n : nat) (hi lo : byte) :
  (0 < n)%nat →
  repeat_pair n hi lo !! 0%nat = Some hi ∧ repeat_pair n hi lo !! 1%nat = Some lo.
Proof. destruct n as [|n]; [lia | done]. Qed.

Lemma convert_tile_samples_witness :
  ∃ (w' : world) (xs : list Z),
    convert_tile env_404 28 85 "N28E085.hgt" world_constant_tile = (Ok tt, w')
    ∧ fs w' !! output_tif = Some (GTiff (tile_raster 28 85 xs))
    ∧ xs !! 0%nat = Some 1000.
Proof.
  assert (0 < grid_cells)%nat as Hpos by (pose proof grid_cells_Z; lia).
  destruct (repeat_pair_head grid_cells x03 xe8 Hpos) as [Hhi Hlo].
  pose proof (convert_tile_repeat env_404 28 85 "N28E085.hgt" world_constant_tile
                grid_cells x03 xe8 [] grid_cells_Z ltac:(cbn; lia)) as Hrun.
  rewrite app_nil_r in Hrun. specialize (Hrun (lookup_singleton_eq _ _)).
  destruct (convert_tile_samples env_404 28 85 "N28E085.hgt" world_constant_tile _
              constant_tile 0 x03 xe8 (lookup_singleton_eq _ _) Hrun Hhi Hlo)
    as (xs & Hfs & Hx).
  eexists _, xs. split; [exact Hrun|]. split; [exact Hfs | exact Hx].
Defined.
